(** * contentQC_Score: the article fetcher and the quality scorer of [app.py]

    A shallow embedding of [get_article] and [evaluate_article_quality]
    and the properties of their results.

    Conventions of the embedding.
    - The scorer is embedded twice.  In [Scorer] a Python [float] is an
      exact rational ([Q]) and equalities between numbers are stated with
      [==]: this is the model for the bounds and order properties, which
      rounding does not disturb.  In [Scorer64] a [float] is an IEEE 754
      double, as in CPython: this is the model for what depends on the
      very value of a number, the test for zero and the rounding of the
      results.
    - Python [str] values are [string]s; [str.lower] is the ASCII
      lower-casing.
    - A Python exception is a value [Raises e] of the [outcome] monad;
      [a / b] raises [ZeroDivisionError] when [b] is zero.
    - The third-party libraries are parameters of the functions that call
      them: TextBlob (sentiment polarity, word tokenizer), the dictionary
      of pyspellchecker, and the HTTP client.  BeautifulSoup is represented
      by the document tree it builds.  Memoisation ([@cache.memoize]) and
      console output are not modelled. *)

From Stdlib Require Import List String Ascii Bool Arith ZArith QArith Qround Lia Lqa.
From Stdlib Require Import Floats.
From Stdlib Require Import Permutation.
From Equations Require Import Equations.
Import ListNotations.

Close Scope Q_scope.
Set Warnings "-inexact-float".

(** ** Python values, exceptions and arithmetic *)

Module Py.

Inductive exn : Type :=
| ZeroDivisionError
| RequestException.

Inductive outcome (A : Type) : Type :=
| Returns (a : A)
| Raises (e : exn).

Arguments Returns {A} a.
Arguments Raises {A} e.

Definition bind {A B : Type} (m : outcome A) (k : A -> outcome B) : outcome B :=
  match m with
  | Returns a => k a
  | Raises e => Raises e
  end.

(** [int(n)] used where a float is expected. *)
Definition of_nat (n : nat) : Q := inject_Z (Z.of_nat n).

(** [a / b] (true division). *)
Definition truediv (a b : Q) : outcome Q :=
  if Qeq_bool b 0 then Raises ZeroDivisionError else Returns (a / b)%Q.

(** Rounding to the nearest integer, ties to the even one. *)
Definition round_half_even (x : Q) : Z :=
  let f := Qfloor x in
  match (x - inject_Z f ?= 1 # 2)%Q with
  | Lt => f
  | Gt => (f + 1)%Z
  | Eq => if Z.even f then f else (f + 1)%Z
  end.

(** [round(x, 0)] and [round(x, 2)]: the result is again a float. *)
Definition round0 (x : Q) : Q := inject_Z (round_half_even x).
Definition round2 (x : Q) : Q :=
  (inject_Z (round_half_even (x * 100)) / 100)%Q.

(** [len(set(xs))] for a list of strings: the set keeps one copy of
    each element. *)
Definition set (xs : list string) : list string := nodup string_dec xs.

(** [c.lower()] on one ASCII character. *)
Definition lower_char (c : ascii) : ascii :=
  let n := nat_of_ascii c in
  if andb (65 <=? n)%nat (n <=? 90)%nat then ascii_of_nat (n + 32) else c.

(** [s.lower()]. *)
Fixpoint lower (s : string) : string :=
  match s with
  | EmptyString => EmptyString
  | String c s' => String (lower_char c) (lower s')
  end.

(** [s.startswith(k)]. *)
Fixpoint startswith (k s : string) : bool :=
  match k, s with
  | EmptyString, _ => true
  | String _ _, EmptyString => false
  | String a k', String b s' => andb (Ascii.eqb a b) (startswith k' s')
  end.

(** [k in s]: [k] occurs in [s] at some position. *)
Fixpoint contains (k s : string) : bool :=
  orb (startswith k s)
      match s with
      | EmptyString => false
      | String _ s' => contains k s'
      end.

(** [sum(b for b in bs)] over booleans: [True] counts 1. *)
Definition sum_bool (bs : list bool) : nat :=
  fold_left (fun acc (b : bool) => acc + (if b then 1 else 0)) bs 0.

End Py.

Notation "x <- m ;; k" := (Py.bind m (fun x => k))
  (at level 61, m at next level, right associativity).

(** ** BeautifulSoup: the document tree and the two queries the fetcher uses *)

Module Soup.

(** A parsed document: text nodes, elements with their children, and
    the strings of the other classes (Comment, Script, Stylesheet and the
    like), which [get_text] leaves out. *)
#[warnings="-register-all"]
Inductive node : Type :=
| NavigableString (s : string)
| OtherString (s : string)
| Tag (name : string) (contents : list node).

(** [tag.get_text()]: every text node below the element, in document
    order, joined without a separator; strings of the other classes are
    skipped. *)
Fixpoint get_text (n : node) : string :=
  match n with
  | NavigableString s => s
  | OtherString _ => EmptyString
  | Tag _ cs =>
      (fix join (l : list node) : string :=
         match l with
         | [] => EmptyString
         | c :: l' => (get_text c ++ join l')%string
         end) cs
  end.

(** The elements named [name] in the subtree of [n], [n] included, in
    document order. *)
Fixpoint find_all_in (name : string) (n : node) : list node :=
  match n with
  | NavigableString _ => []
  | OtherString _ => []
  | Tag t cs =>
      (if String.eqb t name then [n] else [])
        ++ (fix each (l : list node) : list node :=
              match l with
              | [] => []
              | c :: l' => find_all_in name c ++ each l'
              end) cs
  end.

(** [soup.find_all(name)] on the top-level nodes of a document. *)
Definition find_all (name : string) (soup : list node) : list node :=
  flat_map (find_all_in name) soup.

End Soup.

(** ** The regular expression [<.*?>|\n|\t] *)

Module Re.

Definition newline : ascii := ascii_of_nat 10.
Definition tab : ascii := ascii_of_nat 9.
Definition lt_sign : ascii := ascii_of_nat 60.
Definition gt_sign : ascii := ascii_of_nat 62.

(** [.*?>] at the start of [s]: the lazy star stops at the first [>];
    [.] does not match a newline, so the match fails when a newline
    comes first.  The result is what follows the match. *)
Fixpoint lazy_dots_gt (s : string) : option string :=
  match s with
  | EmptyString => None
  | String c s' =>
      if Ascii.eqb c gt_sign then Some s'
      else if Ascii.eqb c newline then None
      else lazy_dots_gt s'
  end.

(** One match of the pattern at the start of [s]; the alternatives are
    tried from left to right.  The result is what follows the match. *)
Definition match_at (s : string) : option string :=
  match s with
  | EmptyString => None
  | String c s' =>
      if Ascii.eqb c lt_sign then lazy_dots_gt s'
      else if Ascii.eqb c newline then Some s'
      else if Ascii.eqb c tab then Some s'
      else None
  end.

Definition inspect {A : Type} (a : A) : {b : A | a = b} := exist _ a eq_refl.

(** [re.sub(r'<.*?>|\n|\t', '', s)]: one pass from left to right; where
    the pattern matches, the match is dropped and the scan goes on after
    it, elsewhere the character is kept. *)
Equations? sub (s : string) : string by wf (String.length s) lt :=
  sub EmptyString := EmptyString;
  sub (String c s') with inspect (match_at (String c s')) := {
    | exist _ (Some rest) _ := sub rest;
    | exist _ None _ := String c (sub s') }.
Proof.
  assert (Hdots : forall t r, lazy_dots_gt t = Some r ->
                              (String.length r < String.length t)%nat).
  { induction t as [|a t IH]; simpl; intros r Hr; [discriminate|].
    destruct (Ascii.eqb a gt_sign).
    - injection Hr as <-. lia.
    - destruct (Ascii.eqb a newline); [discriminate|].
      specialize (IH _ Hr). lia. }
  unfold match_at in e.
  destruct (Ascii.eqb c lt_sign).
  - apply Hdots in e. simpl. lia.
  - destruct (Ascii.eqb c newline); [injection e as <-; simpl; lia|].
    destruct (Ascii.eqb c tab); [injection e as <-; simpl; lia|discriminate].
Qed.

End Re.

(** ** The fetcher *)

Module Fetcher.

(** What [requests.get] hands back: the status code and the body, the
    body as the tree [BeautifulSoup(response.content, 'html.parser')]
    builds from it. *)
Record Response : Type := {
  status_code : Z;
  content : list Soup.node
}.

(** The values [get_article] returns: a [str] or a [bool]. *)
Inductive value : Type :=
| Str (s : string)
| Bool (b : bool).

Section WithNetwork.

(** The HTTP client; a network failure is an exception. *)
Variable requests_get : string -> Py.outcome Response.

Definition get_article (article_url : string) : Py.outcome value :=
  response <- requests_get article_url ;;
  if (status_code response =? 200)%Z then
    let para_tags := Soup.find_all "p" (content response) in
    let all_para := map Soup.get_text para_tags in
    let article_text := String.concat "" all_para in
    let article_text := Re.sub article_text in
    Py.Returns (Str article_text)
  else
    Py.Returns (Bool false).

End WithNetwork.

End Fetcher.

(** ** pyspellchecker: [SpellChecker.unknown] *)

Module SpellChecker.

Section WithDictionary.

(** [w in self._word_frequency.dictionary]. *)
Variable dictionary : string -> bool.
(** [self._check_if_should_check(w)]: punctuation marks, numbers and
    overlong words are not checked. *)
Variable should_check : string -> bool.

(** [spell.unknown(words)]: the checker is not case sensitive, so the
    words are lower-cased before they are looked up, and the result is
    a set. *)
Definition unknown (words : list string) : list string :=
  let tmp := map Py.lower (filter should_check words) in
  Py.set (filter (fun w => negb (dictionary w)) tmp).

End WithDictionary.

End SpellChecker.

(** ** The scorer *)

Module Scorer.

(** The five sub-scores, the local variables of
    [evaluate_article_quality] that the composite is built from. *)
Record scores : Type := {
  readability_score : Q;
  vocabulary_score : Q;
  spelling_error_score : Q;
  relevance_score : Q;
  effort_score : Q
}.

(** [quality_score], the weighted sum. *)
Definition quality_score (s : scores) : Q :=
  ((4 # 10) * readability_score s + (1 # 10) * vocabulary_score s
   + (3 # 10) * relevance_score s + (1 # 10) * effort_score s
   + (1 # 10) * spelling_error_score s)%Q.

(** [score_percentage]. *)
Definition score_percentage (s : scores) : Q :=
  Py.round0 ((quality_score s + 1) * 50)%Q.

(** The dictionary [contributions]: keys in the order of the literal. *)
Definition contributions (s : scores) : Py.outcome (list (string * Q)) :=
  let q := quality_score s in
  c1 <- Py.truediv ((4 # 10) * readability_score s)%Q q ;;
  c2 <- Py.truediv ((1 # 10) * vocabulary_score s)%Q q ;;
  c3 <- Py.truediv ((3 # 10) * relevance_score s)%Q q ;;
  c4 <- Py.truediv ((1 # 10) * effort_score s)%Q q ;;
  c5 <- Py.truediv ((1 # 10) * spelling_error_score s)%Q q ;;
  Py.Returns
    [ ("Readability"%string, Py.round2 (c1 * 100)%Q);
      ("Vocabulary Richness"%string, Py.round2 (c2 * 100)%Q);
      ("Relevance"%string, Py.round2 (c3 * 100)%Q);
      ("Generated by ChatGPT"%string, Py.round2 (c4 * 100)%Q);
      ("Spelling Error"%string, Py.round2 (c5 * 100)%Q) ].

(** Lines 97 to 100: [vocabulary_score] from [words]. *)
Definition vocabulary (words : list string) : Py.outcome Q :=
  let unique_words_count := List.length (Py.set words) in
  let total_words_count := List.length words in
  Py.truediv (Py.of_nat unique_words_count) (Py.of_nat total_words_count).

(** Line 110: [relevance_score]. *)
Definition relevance (article : string) (relevant_keywords_list : list string)
    : Py.outcome Q :=
  Py.truediv
    (Py.of_nat
       (Py.sum_bool
          (map (fun keyword => Py.contains (Py.lower keyword) (Py.lower article))
               relevant_keywords_list)))
    (Py.of_nat (List.length relevant_keywords_list)).

(** Line 113: [effort_score]. *)
Definition effort (is_written_by_chatgpt : bool) : Q :=
  if negb is_written_by_chatgpt then 1%Q else 0%Q.

Section WithLibraries.

(** [TextBlob(article).sentiment.polarity]. *)
Variable polarity : string -> Q.
(** [TextBlob(article).words]. *)
Variable blob_words : string -> list string.
(** The dictionary and the filter of [SpellChecker()]. *)
Variable dictionary : string -> bool.
Variable should_check : string -> bool.

(** Lines 103 to 106: [spelling_error_score] from [words]. *)
Definition spelling_error (words : list string) : Py.outcome Q :=
  let total_words_count := List.length words in
  let misspelled_words := SpellChecker.unknown dictionary should_check words in
  let spelling_error_count := List.length misspelled_words in
  ratio <-
    Py.truediv (Py.of_nat spelling_error_count) (Py.of_nat total_words_count) ;;
  Py.Returns (1 - ratio)%Q.

(** Lines 93 to 113: the five sub-scores, in the order the function
    computes them. *)
Definition sub_scores (article : string) (is_written_by_chatgpt : bool)
    (relevant_keywords_list : list string) : Py.outcome scores :=
  let readability := polarity article in
  let words := blob_words article in
  vocabulary_ <- vocabulary words ;;
  spelling_error_ <- spelling_error words ;;
  relevance_ <- relevance article relevant_keywords_list ;;
  let effort_ := effort is_written_by_chatgpt in
  Py.Returns
    {| readability_score := readability;
       vocabulary_score := vocabulary_;
       spelling_error_score := spelling_error_;
       relevance_score := relevance_;
       effort_score := effort_ |}.

(** Lines 92 to 132. *)
Definition evaluate_article_quality (article : string)
    (is_written_by_chatgpt : bool) (relevant_keywords_list : list string)
    : Py.outcome (Q * list (string * Q)) :=
  s <- sub_scores article is_written_by_chatgpt relevant_keywords_list ;;
  let percentage := score_percentage s in
  c <- contributions s ;;
  Py.Returns (percentage, c).

End WithLibraries.

End Scorer.

(** ** A small instance of the libraries, for running the model *)

Module Demo.

(** Words separated by blanks. *)
Fixpoint split_blank (cur : string) (s : string) : list string :=
  match s with
  | EmptyString => if String.eqb cur "" then [] else [cur]
  | String c s' =>
      if Ascii.eqb c " " then
        (if String.eqb cur "" then [] else [cur]) ++ split_blank "" s'
      else split_blank (cur ++ String c "") s'
  end.

Definition words (article : string) : list string := split_blank "" article.

(** A lexicon with three entries. *)
Definition polarity (article : string) : Q :=
  if Py.contains "perfect" article then 1%Q
  else if Py.contains "unhappy" article then (- (1 # 2))%Q
  else if Py.contains "good" article then (7 # 10)%Q
  else 0%Q.

Definition dictionary (w : string) : bool :=
  existsb (String.eqb w)
    ["good"; "plan"; "for"; "success"; "exam"; "perfect"; "unhappy"; "a"]%string.

Definition should_check (w : string) : bool :=
  negb (existsb (String.eqb w) ["."; ","; "!"; "?"; "2023"]%string).

Definition evaluate := Scorer.evaluate_article_quality polarity words dictionary should_check.
Definition sub_scores := Scorer.sub_scores polarity words dictionary should_check.

End Demo.

(** ** The vocabulary of the specification *)

Module Spec.

(** [k] is a substring of [s]. *)
Definition occurs (k s : string) : Prop :=
  exists pre post : string, s = (pre ++ k ++ post)%string.

(** [tally P l n]: exactly [n] entries of [l] satisfy [P]; entries that
    occur twice count twice. *)
Inductive tally (P : string -> Prop) : list string -> nat -> Prop :=
| tally_nil : tally P [] 0
| tally_hit k l n : P k -> tally P l n -> tally P (k :: l) (S n)
| tally_miss k l n : ~ P k -> tally P l n -> tally P (k :: l) n.

(** A keyword is present when its lower-case form is a substring of the
    lower-cased article. *)
Definition present (article keyword : string) : Prop :=
  occurs (Py.lower keyword) (Py.lower article).

(** [u] lists the distinct elements of [l], each once. *)
Definition distinct_of (l u : list string) : Prop :=
  NoDup u /\ forall w, In w u <-> In w l.

(** The characters of a string. *)
Fixpoint chars (s : string) : list ascii :=
  match s with
  | EmptyString => []
  | String c s' => c :: chars s'
  end.

(** [s] still holds a markup tag: a [<] with a [>] somewhere after it. *)
Fixpoint has_tag (s : string) : bool :=
  match s with
  | EmptyString => false
  | String c s' =>
      orb (andb (Ascii.eqb c Re.lt_sign) (existsb (Ascii.eqb Re.gt_sign) (chars s')))
          (has_tag s')
  end.

(** The composite of section 4.3. *)
Definition quality (readability vocabulary relevance effort spelling_error : Q) : Q :=
  ((4 # 10) * readability + (1 # 10) * vocabulary + (3 # 10) * relevance
   + (1 # 10) * effort + (1 # 10) * spelling_error)%Q.

End Spec.

(** ** The generation detector *)

Module Detector.

(** [torch.nn.functional.pad(x, (0, n))]: [n] zeros after the last
    token. *)
Definition pad (x : list Z) (n : nat) : list Z := x ++ repeat 0%Z n.

(** Lines 65 to 67: both token sequences brought to the length of the
    longer one. *)
Definition pad_both (inputs outputs : list Z) : list Z * list Z :=
  let max_length := Nat.max (List.length inputs) (List.length outputs) in
  (pad inputs (max_length - List.length inputs),
   pad outputs (max_length - List.length outputs)).

Section WithModel.

(** One row of the input embedding table. *)
Variable embedding : Z -> list Q.
(** Lines 70 to 75: the embedding rows of a sequence, laid out as one
    row vector ([reshape(1, -1)]). *)
Definition flat_embeddings (tokens : list Z) : list Q :=
  flat_map embedding tokens.

End WithModel.

End Detector.

(** ** The request handler: the keyword field *)

Module Index.

Definition comma : ascii := ascii_of_nat 44.

(** [s.split(",")]: the pieces between the commas; a string without a
    comma, the empty one included, is its own single piece. *)
Fixpoint split_comma (s : string) : list string :=
  match s with
  | EmptyString => [EmptyString]
  | String c s' =>
      if Ascii.eqb c comma then EmptyString :: split_comma s'
      else match split_comma s' with
           | piece :: rest => String c piece :: rest
           | [] => [String c EmptyString]
           end
  end.

(** [c.isspace()] on one ASCII character: tab to carriage return, the
    four separators 28 to 31, and the blank. *)
Definition isspace (c : ascii) : bool :=
  let n := nat_of_ascii c in
  orb (andb (9 <=? n)%nat (n <=? 13)%nat)
      (orb (andb (28 <=? n)%nat (n <=? 31)%nat) (n =? 32)%nat).

(** [s.lstrip()] and [s.rstrip()]. *)
Fixpoint lstrip (s : string) : string :=
  match s with
  | EmptyString => EmptyString
  | String c s' => if isspace c then lstrip s' else s
  end.

Fixpoint rstrip (s : string) : string :=
  match s with
  | EmptyString => EmptyString
  | String c s' =>
      match rstrip s' with
      | EmptyString => if isspace c then EmptyString else String c EmptyString
      | r => String c r
      end
  end.

(** [s.strip()]. *)
Definition strip (s : string) : string := rstrip (lstrip s).

(** Lines 140 and 141: [relevant_keywords_list] from the form field. *)
Definition relevant_keywords_list (relevant_keywords_input : string) : list string :=
  map strip (split_comma relevant_keywords_input).

(** The first and the last character of a string are white space. *)
Definition starts_with_space (s : string) : bool :=
  match s with
  | EmptyString => false
  | String c _ => isspace c
  end.

Fixpoint ends_with_space (s : string) : bool :=
  match s with
  | EmptyString => false
  | String c EmptyString => isspace c
  | String _ s' => ends_with_space s'
  end.

End Index.

(** ** Binary64 floats

    The arithmetic of the scorer as CPython carries it out: IEEE 754
    doubles, with the division of two ints and [round] on top. *)

Module Float64.

(** An int as an exact, not yet rounded, binary number. *)
Definition of_int (n : Z) : spec_float :=
  match n with
  | Z0 => S754_zero false
  | Zpos p => S754_finite false p 0
  | Zneg p => S754_finite true p 0
  end.

(** [a / b] on two ints: the quotient of the exact values, rounded once
    to the nearest double; [ZeroDivisionError] when [b] is zero. *)
Definition int_truediv (a b : nat) : Py.outcome float :=
  match b with
  | O => Py.Raises Py.ZeroDivisionError
  | S _ =>
      Py.Returns
        (SF2Prim (SFdiv prec emax (of_int (Z.of_nat a)) (of_int (Z.of_nat b))))
  end.

(** [a / b] on two floats: [ZeroDivisionError] when [b == 0.0], which
    holds of both zeros and of no NaN. *)
Definition truediv (a b : float) : Py.outcome float :=
  if PrimFloat.eqb b 0%float then Py.Raises Py.ZeroDivisionError
  else Py.Returns (a / b)%float.

(** The exact value [m * 2^e] of a finite double, as a rational. *)
Definition magnitude (m : positive) (e : Z) : Q :=
  match e with
  | Z0 => inject_Z (Zpos m)
  | Zpos k => inject_Z (Zpos m * 2 ^ Zpos k)
  | Zneg k => Qmake (Zpos m) (2 ^ k)
  end.

(** [round(x, ndigits)] for [ndigits >= 0]: the exact value of [x] is
    rounded to [ndigits] decimals, ties to even, and the decimal result
    is converted back to the nearest double; zeros, infinities and NaN
    round to themselves, and the sign of [x] is kept. *)
Definition round (x : float) (ndigits : nat) : float :=
  match Prim2SF x with
  | S754_finite s m e =>
      let scale := Z.to_pos (10 ^ Z.of_nat ndigits) in
      match Py.round_half_even (magnitude m e * inject_Z (Zpos scale))%Q with
      | Zpos y =>
          SF2Prim (SFdiv prec emax (S754_finite s y 0) (S754_finite false scale 0))
      | _ => SF2Prim (S754_zero s)
      end
  | _ => x
  end.

End Float64.

(** ** The scorer in binary64

    [evaluate_article_quality] once more, line by line as in [Scorer],
    with every number a double. *)

Module Scorer64.

Local Open Scope float_scope.

Record scores : Type := {
  readability_score : float;
  vocabulary_score : float;
  spelling_error_score : float;
  relevance_score : float;
  effort_score : float
}.

(** Lines 116 to 118: [quality_score]; the weights are the doubles
    nearest to the decimal literals. *)
Definition quality_score (s : scores) : float :=
  0.4 * readability_score s + 0.1 * vocabulary_score s
  + 0.3 * relevance_score s + 0.1 * effort_score s
  + 0.1 * spelling_error_score s.

(** Line 121: [score_percentage]. *)
Definition score_percentage (s : scores) : float :=
  Float64.round ((quality_score s + 1) * 50) 0.

(** Lines 124 to 130: the dictionary [contributions]. *)
Definition contributions (s : scores) : Py.outcome (list (string * float)) :=
  let q := quality_score s in
  c1 <- Float64.truediv (0.4 * readability_score s) q ;;
  c2 <- Float64.truediv (0.1 * vocabulary_score s) q ;;
  c3 <- Float64.truediv (0.3 * relevance_score s) q ;;
  c4 <- Float64.truediv (0.1 * effort_score s) q ;;
  c5 <- Float64.truediv (0.1 * spelling_error_score s) q ;;
  Py.Returns
    [ ("Readability"%string, Float64.round (c1 * 100) 2);
      ("Vocabulary Richness"%string, Float64.round (c2 * 100) 2);
      ("Relevance"%string, Float64.round (c3 * 100) 2);
      ("Generated by ChatGPT"%string, Float64.round (c4 * 100) 2);
      ("Spelling Error"%string, Float64.round (c5 * 100) 2) ].

(** Lines 97 to 100: [vocabulary_score]. *)
Definition vocabulary (words : list string) : Py.outcome float :=
  let unique_words_count := List.length (Py.set words) in
  let total_words_count := List.length words in
  Float64.int_truediv unique_words_count total_words_count.

(** Line 110: [relevance_score]. *)
Definition relevance (article : string) (relevant_keywords_list : list string)
    : Py.outcome float :=
  Float64.int_truediv
    (Py.sum_bool
       (map (fun keyword => Py.contains (Py.lower keyword) (Py.lower article))
            relevant_keywords_list))
    (List.length relevant_keywords_list).

(** Line 113: [effort_score]. *)
Definition effort (is_written_by_chatgpt : bool) : float :=
  if negb is_written_by_chatgpt then 1 else 0.

Section WithLibraries.

(** [TextBlob(article).sentiment.polarity]. *)
Variable polarity : string -> float.
(** [TextBlob(article).words]. *)
Variable blob_words : string -> list string.
(** The dictionary and the filter of [SpellChecker()]. *)
Variable dictionary : string -> bool.
Variable should_check : string -> bool.

(** Lines 103 to 106: [spelling_error_score]. *)
Definition spelling_error (words : list string) : Py.outcome float :=
  let total_words_count := List.length words in
  let misspelled_words := SpellChecker.unknown dictionary should_check words in
  let spelling_error_count := List.length misspelled_words in
  ratio <- Float64.int_truediv spelling_error_count total_words_count ;;
  Py.Returns (1 - ratio).

(** Lines 93 to 113. *)
Definition sub_scores (article : string) (is_written_by_chatgpt : bool)
    (relevant_keywords_list : list string) : Py.outcome scores :=
  let readability := polarity article in
  let words := blob_words article in
  vocabulary_ <- vocabulary words ;;
  spelling_error_ <- spelling_error words ;;
  relevance_ <- relevance article relevant_keywords_list ;;
  let effort_ := effort is_written_by_chatgpt in
  Py.Returns
    {| readability_score := readability;
       vocabulary_score := vocabulary_;
       spelling_error_score := spelling_error_;
       relevance_score := relevance_;
       effort_score := effort_ |}.

(** Lines 92 to 132. *)
Definition evaluate_article_quality (article : string)
    (is_written_by_chatgpt : bool) (relevant_keywords_list : list string)
    : Py.outcome (float * list (string * float)) :=
  s <- sub_scores article is_written_by_chatgpt relevant_keywords_list ;;
  let percentage := score_percentage s in
  c <- contributions s ;;
  Py.Returns (percentage, c).

End WithLibraries.

End Scorer64.

(** ** A second small instance, with doubles *)

Module Sample64.

(** The polarity TextBlob gives the three texts used below: -0.5 for
    "sad", 0.7 for "good plan", 0.0 for "plan plan". *)
Definition polarity (article : string) : float :=
  if Py.contains "sad" article then (-0.5)%float
  else if Py.contains "good" article then 0.7%float
  else 0%float.

Definition dictionary (w : string) : bool :=
  existsb (String.eqb w) ["sad"; "good"; "plan"; "exam"]%string.

Definition evaluate :=
  Scorer64.evaluate_article_quality polarity Demo.words dictionary Demo.should_check.
Definition sub_scores :=
  Scorer64.sub_scores polarity Demo.words dictionary Demo.should_check.

End Sample64.

(** ** ASCII text *)

Module Str.

(** [s.isascii()]. *)
Fixpoint isascii (s : string) : bool :=
  match s with
  | EmptyString => true
  | String c s' => andb (nat_of_ascii c <? 128)%nat (isascii s')
  end.

End Str.

(** * Properties *)

(** ** Arithmetic *)

Section Arithmetic.

Local Open Scope Q_scope.

Lemma truediv_returns (a b : Q) :
  ~ b == 0 -> Py.truediv a b = Py.Returns (a / b).
Proof.
  intros Hb. unfold Py.truediv.
  destruct (Qeq_bool b 0) eqn:E; [|reflexivity].
  apply Qeq_bool_iff in E. contradiction.
Qed.

Lemma truediv_raises (a b : Q) :
  b == 0 -> Py.truediv a b = Py.Raises Py.ZeroDivisionError.
Proof.
  intros Hb. unfold Py.truediv.
  apply Qeq_bool_iff in Hb. now rewrite Hb.
Qed.

Lemma of_nat_nonneg (n : nat) : 0 <= Py.of_nat n.
Proof.
  unfold Py.of_nat. change 0 with (inject_Z 0).
  rewrite <- Zle_Qle. lia.
Qed.

Lemma of_nat_pos (n : nat) : (0 < n)%nat -> 0 < Py.of_nat n.
Proof.
  intros Hn. unfold Py.of_nat. change 0 with (inject_Z 0).
  rewrite <- Zlt_Qlt. lia.
Qed.

Lemma of_nat_le (m n : nat) : (m <= n)%nat -> Py.of_nat m <= Py.of_nat n.
Proof.
  intros H. unfold Py.of_nat. rewrite <- Zle_Qle. lia.
Qed.

(** A quotient of counts [m / n] with [m <= n] and [0 < n]. *)
Lemma ratio_bounds (m n : nat) :
  (m <= n)%nat -> (0 < n)%nat ->
  0 <= Py.of_nat m / Py.of_nat n <= 1.
Proof.
  intros Hmn Hn.
  pose proof (of_nat_pos n Hn) as Hpos.
  pose proof (of_nat_nonneg m) as Hm.
  pose proof (of_nat_le m n Hmn) as Hle.
  split.
  - apply Qle_shift_div_l; [assumption|]. lra.
  - apply Qle_shift_div_r; [assumption|]. lra.
Qed.

Lemma ratio_pos (m n : nat) :
  (0 < m)%nat -> (0 < n)%nat -> 0 < Py.of_nat m / Py.of_nat n.
Proof.
  intros Hm Hn.
  apply Qlt_shift_div_l; [now apply of_nat_pos|].
  pose proof (of_nat_pos m Hm). lra.
Qed.

Lemma ratio_same (n : nat) : (0 < n)%nat -> Py.of_nat n / Py.of_nat n == 1.
Proof.
  intros Hn. pose proof (of_nat_pos n Hn).
  field. lra.
Qed.

(** [round_half_even x] is the floor of [x] or the integer after it. *)
Lemma round_half_even_cases (x : Q) :
  let f := Qfloor x in
  (Py.round_half_even x = f /\ x - inject_Z f <= 1 # 2)
  \/ (Py.round_half_even x = (f + 1)%Z /\ 1 # 2 <= x - inject_Z f).
Proof.
  cbv zeta. unfold Py.round_half_even.
  destruct (Qcompare_spec (x - inject_Z (Qfloor x)) (1 # 2)) as [E|E|E].
  - destruct (Z.even (Qfloor x)); [left|right]; split; try reflexivity; lra.
  - left. split; [reflexivity|lra].
  - right. split; [reflexivity|lra].
Qed.

Lemma floor_bounds (x : Q) :
  inject_Z (Qfloor x) <= x /\ x < inject_Z (Qfloor x) + 1.
Proof.
  split; [apply Qfloor_le|].
  pose proof (Qlt_floor x) as H.
  rewrite inject_Z_plus in H. exact H.
Qed.

(** Rounding is monotone. *)
Lemma round_half_even_le (x y : Q) :
  x <= y -> (Py.round_half_even x <= Py.round_half_even y)%Z.
Proof.
  intros Hxy.
  pose proof (Qfloor_resp_le _ _ Hxy) as Hf.
  destruct (Z.eq_dec (Qfloor x) (Qfloor y)) as [Heq|Hne].
  - unfold Py.round_half_even. rewrite <- Heq.
    destruct (Qcompare_spec (x - inject_Z (Qfloor x)) (1 # 2)) as [Ex|Ex|Ex];
      destruct (Qcompare_spec (y - inject_Z (Qfloor x)) (1 # 2)) as [Ey|Ey|Ey];
      try destruct (Z.even (Qfloor x)); try lia; exfalso; lra.
  - destruct (round_half_even_cases x) as [[-> _]|[-> _]];
      destruct (round_half_even_cases y) as [[-> _]|[-> _]]; lia.
Qed.

End Arithmetic.

(** Where the percentage leaves the range 0 to 100. *)
Section RoundingThresholds.

Local Open Scope Q_scope.

Lemma round_half_even_above_100 (z : Q) :
  201 # 2 < z -> (100 < Py.round_half_even z)%Z.
Proof.
  intros Hz.
  assert (Hf : (100 <= Qfloor z)%Z).
  { rewrite <- (Qfloor_Z 100). apply Qfloor_resp_le.
    change (inject_Z 100) with 100. lra. }
  unfold Py.round_half_even.
  destruct (Z.eq_dec (Qfloor z) 100) as [E|E].
  - rewrite E.
    destruct (Qcompare_spec (z - inject_Z 100) (1 # 2)) as [C|C|C];
      change (inject_Z 100) with 100 in C; try lra; lia.
  - destruct (z - inject_Z (Qfloor z) ?= 1 # 2);
      try destruct (Z.even (Qfloor z)); lia.
Qed.

Lemma round_half_even_upto_100 (z : Q) :
  z <= 201 # 2 -> (Py.round_half_even z <= 100)%Z.
Proof.
  intros Hz. apply round_half_even_le in Hz.
  change (Py.round_half_even (201 # 2)) with 100%Z in Hz. exact Hz.
Qed.

Lemma round_half_even_below_0 (z : Q) :
  z < - (1 # 2) -> (Py.round_half_even z < 0)%Z.
Proof.
  intros Hz.
  destruct (floor_bounds z) as [Hlo Hhi].
  assert (Hf : (Qfloor z <= -1)%Z).
  { assert (Hneg : inject_Z (Qfloor z) < inject_Z 0).
    { change (inject_Z 0) with 0. lra. }
    rewrite <- Zlt_Qlt in Hneg. lia. }
  unfold Py.round_half_even.
  destruct (Z.eq_dec (Qfloor z) (-1)) as [E|E].
  - rewrite E.
    destruct (Qcompare_spec (z - inject_Z (-1)) (1 # 2)) as [C|C|C];
      change (inject_Z (-1)) with (-1) in C; try lra; lia.
  - destruct (z - inject_Z (Qfloor z) ?= 1 # 2);
      try destruct (Z.even (Qfloor z)); lia.
Qed.

Lemma round_half_even_from_0 (z : Q) :
  - (1 # 2) <= z -> (0 <= Py.round_half_even z)%Z.
Proof.
  intros Hz. apply round_half_even_le in Hz.
  change (Py.round_half_even (- (1 # 2))) with 0%Z in Hz. exact Hz.
Qed.

End RoundingThresholds.

(** ** Strings and counting *)

Section Strings.

Lemma startswith_prefix (k s : string) :
  Py.startswith k s = true <-> exists post, s = (k ++ post)%string.
Proof.
  revert s. induction k as [|a k IH]; intros s; simpl.
  - split; [intros _; now exists s|reflexivity].
  - destruct s as [|b s].
    + split; [discriminate|intros [post H]; discriminate].
    + rewrite andb_true_iff, Ascii.eqb_eq, IH. split.
      * intros [-> [post ->]]. now exists post.
      * intros [post H]. injection H as -> ->. split; [reflexivity|now exists post].
Qed.

(** [k in s] decides that [k] is a substring of [s]. *)
Lemma contains_occurs (k s : string) :
  Py.contains k s = true <-> Spec.occurs k s.
Proof.
  unfold Spec.occurs. split.
  - induction s as [|c s IH]; simpl; rewrite orb_true_iff;
      (intros [H|H]; [apply startswith_prefix in H; destruct H as [post ->];
                      now exists EmptyString, post|]).
    + discriminate.
    + destruct (IH H) as (pre & post & ->). now exists (String c pre), post.
  - intros (pre & post & ->).
    induction pre as [|c pre IH]; simpl.
    + assert (H : Py.startswith k (k ++ post) = true)
        by (apply startswith_prefix; now exists post).
      destruct (k ++ post)%string; simpl; now rewrite H.
    + rewrite orb_true_iff. right. exact IH.
Qed.

Lemma contains_empty (s : string) : Py.contains EmptyString s = true.
Proof. destruct s; reflexivity. Qed.

Lemma sum_bool_shift (bs : list bool) (a : nat) :
  fold_left (fun acc (b : bool) => acc + (if b then 1 else 0)) bs a
  = a + Py.sum_bool bs.
Proof.
  unfold Py.sum_bool. revert a.
  induction bs as [|b bs IH]; intros a; simpl; [lia|].
  rewrite IH, (IH (if b then 1 else 0)). lia.
Qed.

Lemma sum_bool_cons (b : bool) (bs : list bool) :
  Py.sum_bool (b :: bs) = (if b then 1 else 0) + Py.sum_bool bs.
Proof.
  unfold Py.sum_bool at 1. simpl. now rewrite sum_bool_shift.
Qed.

Lemma sum_bool_le (bs : list bool) : Py.sum_bool bs <= List.length bs.
Proof.
  induction bs as [|b bs IH]; [reflexivity|].
  rewrite sum_bool_cons. destruct b; simpl; lia.
Qed.

(** The sum over the membership tests is the tally of the keywords for
    which the test holds. *)
Lemma sum_bool_tally (P : string -> Prop) (f : string -> bool) (l : list string) :
  (forall k, f k = true <-> P k) ->
  Spec.tally P l (Py.sum_bool (map f l)).
Proof.
  intros Hf. induction l as [|k l IH]; simpl.
  - constructor.
  - rewrite sum_bool_cons. destruct (f k) eqn:E; simpl.
    + apply Spec.tally_hit; [now apply Hf|exact IH].
    + apply Spec.tally_miss; [|exact IH].
      intros HP. apply Hf in HP. congruence.
Qed.

Lemma tally_unique (P : string -> Prop) (l : list string) (n m : nat) :
  Spec.tally P l n -> Spec.tally P l m -> n = m.
Proof.
  intros Hn. revert m.
  induction Hn as [|k l n Hk _ IH|k l n Hk _ IH]; intros m Hm;
    inversion Hm; subst; try contradiction; auto.
Qed.

Lemma tally_all (P : string -> Prop) (l : list string) :
  Forall P l -> Spec.tally P l (List.length l).
Proof.
  induction 1; simpl; constructor; assumption.
Qed.

Lemma tally_none (P : string -> Prop) (l : list string) :
  Forall (fun k => ~ P k) l -> Spec.tally P l 0.
Proof.
  induction 1; constructor; assumption.
Qed.

End Strings.

(** ** Sets of words and the spell checker *)

Section Words.

Lemma set_distinct (l : list string) : Spec.distinct_of l (Py.set l).
Proof.
  split; [apply NoDup_nodup|intros w; apply nodup_In].
Qed.

Lemma set_length_le (l : list string) :
  List.length (Py.set l) <= List.length l.
Proof.
  apply NoDup_incl_length; [apply NoDup_nodup|].
  intros w Hw. now apply nodup_In in Hw.
Qed.

Lemma set_length_pos (l : list string) :
  l <> [] -> 0 < List.length (Py.set l).
Proof.
  destruct l as [|w l]; [congruence|]. intros _.
  assert (Hw : In w (Py.set (w :: l))) by (apply nodup_In; now left).
  destruct (Py.set (w :: l)); [contradiction|simpl; lia].
Qed.

(** Any duplicate-free listing of the words has as many entries as the
    set has. *)
Lemma distinct_length (l u : list string) :
  Spec.distinct_of l u -> List.length u = List.length (Py.set l).
Proof.
  intros [Hnd Hin]. apply Nat.le_antisymm.
  - apply NoDup_incl_length; [exact Hnd|].
    intros w Hw. apply nodup_In. now apply Hin.
  - apply NoDup_incl_length; [apply NoDup_nodup|].
    intros w Hw. apply Hin. now apply nodup_In in Hw.
Qed.

Variable dictionary : string -> bool.
Variable should_check : string -> bool.

(** What [unknown] holds: the lower-case forms of the checked words that
    the dictionary lacks. *)
Lemma unknown_In (words : list string) (x : string) :
  In x (SpellChecker.unknown dictionary should_check words)
  <-> exists w, In w words /\ should_check w = true
                /\ x = Py.lower w /\ dictionary x = false.
Proof.
  unfold SpellChecker.unknown, Py.set.
  rewrite nodup_In, filter_In, in_map_iff, negb_true_iff. split.
  - intros [(w & <- & Hw) Hd]. apply filter_In in Hw as [Hw Hc].
    exists w. auto.
  - intros (w & Hw & Hc & -> & Hd). split; [|exact Hd].
    exists w. split; [reflexivity|]. apply filter_In. auto.
Qed.

Lemma unknown_NoDup (words : list string) :
  NoDup (SpellChecker.unknown dictionary should_check words).
Proof. apply NoDup_nodup. Qed.

(** There are no more misspelled words than distinct words. *)
Lemma unknown_length_le_set (words : list string) :
  List.length (SpellChecker.unknown dictionary should_check words)
  <= List.length (Py.set words).
Proof.
  rewrite <- (length_map Py.lower (Py.set words)).
  apply NoDup_incl_length; [apply unknown_NoDup|].
  intros x Hx. apply unknown_In in Hx as (w & Hw & _ & -> & _).
  apply in_map. now apply nodup_In.
Qed.

Lemma unknown_length_le (words : list string) :
  List.length (SpellChecker.unknown dictionary should_check words)
  <= List.length words.
Proof.
  etransitivity; [apply unknown_length_le_set|apply set_length_le].
Qed.

End Words.

(** ** The regular expression pass *)

Section Regex.

Lemma lazy_dots_gt_chars (s r : string) (c : ascii) :
  Re.lazy_dots_gt s = Some r -> In c (Spec.chars r) -> In c (Spec.chars s).
Proof.
  induction s as [|a s IH]; simpl; [discriminate|].
  destruct (Ascii.eqb a Re.gt_sign).
  - intros [= ->]. auto.
  - destruct (Ascii.eqb a Re.newline); [discriminate|]. auto.
Qed.

Lemma match_at_chars (s r : string) (c : ascii) :
  Re.match_at s = Some r -> In c (Spec.chars r) -> In c (Spec.chars s).
Proof.
  destruct s as [|a s]; simpl; [discriminate|].
  destruct (Ascii.eqb a Re.lt_sign).
  - intros H Hc. right. eapply lazy_dots_gt_chars; eauto.
  - destruct (Ascii.eqb a Re.newline); [intros [= ->]; auto|].
    destruct (Ascii.eqb a Re.tab); [intros [= ->]; auto|discriminate].
Qed.

(** A character the pattern does not match at is neither a newline nor
    a tab. *)
Lemma match_at_none_head (a : ascii) (s : string) :
  Re.match_at (String a s) = None -> a <> Re.newline /\ a <> Re.tab.
Proof.
  simpl. destruct (Ascii.eqb a Re.lt_sign) eqn:El.
  - apply Ascii.eqb_eq in El. subst a. intros _. split; discriminate.
  - destruct (Ascii.eqb a Re.newline) eqn:En; [discriminate|].
    destruct (Ascii.eqb a Re.tab) eqn:Et; [discriminate|].
    apply Ascii.eqb_neq in En, Et. auto.
Qed.

(** The two steps of the scan. *)
Lemma sub_skip (c : ascii) (s' rest : string) :
  Re.match_at (String c s') = Some rest -> Re.sub (String c s') = Re.sub rest.
Proof.
  intros E. simp sub.
  destruct (Re.inspect (Re.match_at (String c s'))) as [[r|] Hm]; simp sub.
  - congruence.
  - congruence.
Qed.

Lemma sub_keep (c : ascii) (s' : string) :
  Re.match_at (String c s') = None ->
  Re.sub (String c s') = String c (Re.sub s').
Proof.
  intros E. simp sub.
  destruct (Re.inspect (Re.match_at (String c s'))) as [[r|] Hm]; simp sub.
  - congruence.
  - reflexivity.
Qed.

(** The pass only drops characters, and it drops every newline and tab. *)
Lemma sub_chars (s : string) (c : ascii) :
  In c (Spec.chars (Re.sub s)) ->
  In c (Spec.chars s) /\ c <> Re.newline /\ c <> Re.tab.
Proof.
  revert c. funelim (Re.sub s); intros x.
  - simpl. contradiction.
  - intros Hx. destruct (H _ Hx) as [Hin Hne].
    split; [|exact Hne].
    apply (match_at_chars (String c s') rest _ e Hin).
  - simpl. intros [<-|Hx].
    + split; [now left|]. now apply match_at_none_head with s'.
    + destruct (H _ Hx) as [Hin Hne]. auto.
Qed.

(** Without a newline in the way, [.*?>] fails only when no [>] is left. *)
Lemma lazy_dots_gt_none (s : string) :
  ~ In Re.newline (Spec.chars s) ->
  Re.lazy_dots_gt s = None ->
  existsb (Ascii.eqb Re.gt_sign) (Spec.chars s) = false.
Proof.
  induction s as [|a s IH];
    cbn [Spec.chars existsb Re.lazy_dots_gt In]; [reflexivity|].
  intros Hnl. rewrite (Ascii.eqb_sym Re.gt_sign a).
  destruct (Ascii.eqb a Re.gt_sign); [discriminate|].
  destruct (Ascii.eqb a Re.newline) eqn:En.
  - apply Ascii.eqb_eq in En. subst a. exfalso. apply Hnl. now left.
  - intros H. cbn [orb]. apply IH; [|exact H].
    intros Hin. apply Hnl. now right.
Qed.

Lemma sub_keeps_no_gt (s : string) :
  existsb (Ascii.eqb Re.gt_sign) (Spec.chars s) = false ->
  existsb (Ascii.eqb Re.gt_sign) (Spec.chars (Re.sub s)) = false.
Proof.
  intros Hs.
  destruct (existsb (Ascii.eqb Re.gt_sign) (Spec.chars (Re.sub s))) eqn:E;
    [|reflexivity].
  apply existsb_exists in E as (x & Hx & Hgt).
  apply sub_chars in Hx as [Hx _].
  rewrite <- Hs. symmetry. apply existsb_exists. now exists x.
Qed.

(** On a text without newlines the pass leaves no tag behind. *)
Lemma sub_no_tag (s : string) :
  ~ In Re.newline (Spec.chars s) -> Spec.has_tag (Re.sub s) = false.
Proof.
  funelim (Re.sub s); intros Hnl.
  - reflexivity.
  - apply H. intros Hin. apply Hnl.
    apply (match_at_chars (String c s') rest _ e Hin).
  - cbn [Spec.has_tag].
    rewrite H by (intros Hin; apply Hnl; now right).
    rewrite orb_false_r.
    destruct (Ascii.eqb c Re.lt_sign) eqn:El; [|reflexivity].
    assert (Hdots : Re.lazy_dots_gt s' = None).
    { pose proof e as e'. cbn [Re.match_at] in e'. now rewrite El in e'. }
    cbn [andb].
    apply sub_keeps_no_gt, lazy_dots_gt_none; [|exact Hdots].
    intros Hin. apply Hnl. now right.
Qed.

(** A text without [<], newline or tab passes unchanged. *)
Lemma sub_plain (s : string) :
  (forall c, In c (Spec.chars s) ->
             c <> Re.lt_sign /\ c <> Re.newline /\ c <> Re.tab) ->
  Re.sub s = s.
Proof.
  induction s as [|a s IH]; intros Hs; [reflexivity|].
  destruct (Hs a (or_introl eq_refl)) as (Hl & Hn & Ht).
  apply Ascii.eqb_neq in Hl, Hn, Ht.
  assert (E : Re.match_at (String a s) = None)
    by (cbn [Re.match_at]; now rewrite Hl, Hn, Ht).
  rewrite (sub_keep a s E), IH; [reflexivity|].
  intros c Hc. apply Hs. now right.
Qed.

End Regex.

(** ** The sub-scores *)

Section SubScores.

Local Open Scope Q_scope.

Lemma of_nat_length_nonzero (A : Type) (l : list A) :
  l <> [] -> ~ Py.of_nat (List.length l) == 0.
Proof.
  intros Hl.
  assert (Hpos : 0 < Py.of_nat (List.length l)).
  { apply of_nat_pos. destruct l; [congruence|simpl; lia]. }
  lra.
Qed.

Lemma of_nat_length_nil (A : Type) : Py.of_nat (List.length (@nil A)) == 0.
Proof. reflexivity. Qed.

Lemma length_pos (A : Type) (l : list A) : l <> [] -> (0 < List.length l)%nat.
Proof. destruct l; [congruence|simpl; lia]. Qed.

Lemma vocabulary_returns (words : list string) :
  words <> [] ->
  Scorer.vocabulary words
  = Py.Returns (Py.of_nat (List.length (Py.set words))
                / Py.of_nat (List.length words)).
Proof.
  intros Hw. unfold Scorer.vocabulary.
  apply truediv_returns. now apply of_nat_length_nonzero.
Qed.

Lemma vocabulary_raises : Scorer.vocabulary [] = Py.Raises Py.ZeroDivisionError.
Proof. reflexivity. Qed.

Lemma relevance_returns (article : string) (keywords : list string) :
  keywords <> [] ->
  Scorer.relevance article keywords
  = Py.Returns
      (Py.of_nat
         (Py.sum_bool
            (map (fun keyword => Py.contains (Py.lower keyword) (Py.lower article))
                 keywords))
       / Py.of_nat (List.length keywords)).
Proof.
  intros Hk. unfold Scorer.relevance.
  apply truediv_returns. now apply of_nat_length_nonzero.
Qed.

Lemma relevance_raises (article : string) :
  Scorer.relevance article [] = Py.Raises Py.ZeroDivisionError.
Proof. reflexivity. Qed.

Variable polarity : string -> Q.
Variable blob_words : string -> list string.
Variable dictionary : string -> bool.
Variable should_check : string -> bool.

Lemma spelling_error_returns (words : list string) :
  words <> [] ->
  Scorer.spelling_error dictionary should_check words
  = Py.Returns
      (1 - Py.of_nat (List.length (SpellChecker.unknown dictionary should_check words))
           / Py.of_nat (List.length words)).
Proof.
  intros Hw. unfold Scorer.spelling_error.
  rewrite truediv_returns by now apply of_nat_length_nonzero.
  reflexivity.
Qed.

(** With at least one word and one keyword all five sub-scores are
    computed. *)
Lemma sub_scores_returns (article : string) (flag : bool) (keywords : list string) :
  blob_words article <> [] -> keywords <> [] ->
  exists v sp rel,
    Scorer.vocabulary (blob_words article) = Py.Returns v
    /\ Scorer.spelling_error dictionary should_check (blob_words article)
       = Py.Returns sp
    /\ Scorer.relevance article keywords = Py.Returns rel
    /\ Scorer.sub_scores polarity blob_words dictionary should_check
         article flag keywords
       = Py.Returns
           {| Scorer.readability_score := polarity article;
              Scorer.vocabulary_score := v;
              Scorer.spelling_error_score := sp;
              Scorer.relevance_score := rel;
              Scorer.effort_score := Scorer.effort flag |}.
Proof.
  intros Hw Hk. unfold Scorer.sub_scores.
  rewrite (vocabulary_returns _ Hw), (spelling_error_returns _ Hw),
    (relevance_returns article _ Hk).
  do 3 eexists. repeat split; reflexivity.
Qed.

(** Conversely, the sub-scores exist only then, and they are the values
    of the three quotients. *)
Lemma sub_scores_inv (article : string) (flag : bool) (keywords : list string)
    (s : Scorer.scores) :
  Scorer.sub_scores polarity blob_words dictionary should_check
    article flag keywords = Py.Returns s ->
  blob_words article <> [] /\ keywords <> []
  /\ Scorer.readability_score s = polarity article
  /\ Scorer.vocabulary (blob_words article) = Py.Returns (Scorer.vocabulary_score s)
  /\ Scorer.spelling_error dictionary should_check (blob_words article)
     = Py.Returns (Scorer.spelling_error_score s)
  /\ Scorer.relevance article keywords = Py.Returns (Scorer.relevance_score s)
  /\ Scorer.effort_score s = Scorer.effort flag.
Proof.
  intros Hs.
  assert (Hw : blob_words article <> []).
  { intros E. unfold Scorer.sub_scores in Hs. rewrite E in Hs. discriminate. }
  assert (Hk : keywords <> []).
  { intros E. subst keywords. unfold Scorer.sub_scores in Hs.
    rewrite (vocabulary_returns _ Hw), (spelling_error_returns _ Hw) in Hs.
    discriminate. }
  destruct (sub_scores_returns article flag keywords Hw Hk) as (v & sp & rel & Hv & Hsp & Hrel & E).
  rewrite E in Hs. injection Hs as <-. simpl. auto 10.
Qed.

(** The function is the sub-scores followed by the breakdown. *)
Lemma evaluate_unfold (article : string) (flag : bool) (keywords : list string)
    (s : Scorer.scores) :
  Scorer.sub_scores polarity blob_words dictionary should_check
    article flag keywords = Py.Returns s ->
  Scorer.evaluate_article_quality polarity blob_words dictionary should_check
    article flag keywords
  = (c <- Scorer.contributions s ;; Py.Returns (Scorer.score_percentage s, c)).
Proof.
  intros Hs. unfold Scorer.evaluate_article_quality. now rewrite Hs.
Qed.

Lemma evaluate_inv (article : string) (flag : bool) (keywords : list string)
    (p : Q) (c : list (string * Q)) :
  Scorer.evaluate_article_quality polarity blob_words dictionary should_check
    article flag keywords = Py.Returns (p, c) ->
  exists s,
    Scorer.sub_scores polarity blob_words dictionary should_check
      article flag keywords = Py.Returns s
    /\ Scorer.contributions s = Py.Returns c
    /\ p = Scorer.score_percentage s.
Proof.
  unfold Scorer.evaluate_article_quality.
  destruct (Scorer.sub_scores _ _ _ _ _ _ _) as [s|e]; simpl; [|discriminate].
  destruct (Scorer.contributions s) as [c'|e] eqn:Ec; simpl; [|discriminate].
  intros [= <- <-]. now exists s.
Qed.

(** The breakdown exists exactly when the composite is not zero. *)
Lemma contributions_returns (s : Scorer.scores) :
  ~ Scorer.quality_score s == 0 ->
  Scorer.contributions s
  = Py.Returns
      [ ("Readability"%string,
         Py.round2 ((4 # 10) * Scorer.readability_score s
                    / Scorer.quality_score s * 100));
        ("Vocabulary Richness"%string,
         Py.round2 ((1 # 10) * Scorer.vocabulary_score s
                    / Scorer.quality_score s * 100));
        ("Relevance"%string,
         Py.round2 ((3 # 10) * Scorer.relevance_score s
                    / Scorer.quality_score s * 100));
        ("Generated by ChatGPT"%string,
         Py.round2 ((1 # 10) * Scorer.effort_score s
                    / Scorer.quality_score s * 100));
        ("Spelling Error"%string,
         Py.round2 ((1 # 10) * Scorer.spelling_error_score s
                    / Scorer.quality_score s * 100)) ].
Proof.
  intros Hq. unfold Scorer.contributions.
  rewrite !(fun a => truediv_returns a _ Hq). reflexivity.
Qed.

Lemma contributions_raises (s : Scorer.scores) :
  Scorer.quality_score s == 0 ->
  Scorer.contributions s = Py.Raises Py.ZeroDivisionError.
Proof.
  intros Hq. unfold Scorer.contributions.
  now rewrite (truediv_raises _ _ Hq).
Qed.

End SubScores.

(** ** Ranges of the sub-scores *)

Section Ranges.

Local Open Scope Q_scope.

Lemma vocabulary_range (words : list string) (v : Q) :
  Scorer.vocabulary words = Py.Returns v -> 0 < v <= 1.
Proof.
  intros Hv.
  assert (Hw : words <> []) by (intros ->; discriminate).
  rewrite (vocabulary_returns words Hw) in Hv. injection Hv as <-.
  split.
  - apply ratio_pos; [now apply set_length_pos|now apply length_pos].
  - apply ratio_bounds; [apply set_length_le|now apply length_pos].
Qed.

Lemma relevance_range (article : string) (keywords : list string) (r : Q) :
  Scorer.relevance article keywords = Py.Returns r -> 0 <= r <= 1.
Proof.
  intros Hr.
  assert (Hk : keywords <> []) by (intros ->; discriminate).
  rewrite (relevance_returns article keywords Hk) in Hr. injection Hr as <-.
  apply ratio_bounds; [|now apply length_pos].
  rewrite <- (length_map
                (fun keyword => Py.contains (Py.lower keyword) (Py.lower article))
                keywords).
  apply sum_bool_le.
Qed.

Lemma spelling_error_range (dictionary should_check : string -> bool)
    (words : list string) (sp : Q) :
  Scorer.spelling_error dictionary should_check words = Py.Returns sp ->
  0 <= sp <= 1.
Proof.
  intros Hsp.
  assert (Hw : words <> []) by (intros ->; discriminate).
  rewrite (spelling_error_returns dictionary should_check words Hw) in Hsp.
  injection Hsp as <-.
  pose proof (ratio_bounds _ _ (unknown_length_le dictionary should_check words)
                (length_pos _ words Hw)) as Hb.
  lra.
Qed.

Lemma effort_values (flag : bool) :
  Scorer.effort flag = (if flag then 0 else 1).
Proof. now destruct flag. Qed.

End Ranges.

(** * The composite score *)

Section Composite.

Local Open Scope Q_scope.

Variable polarity : string -> Q.
Variable blob_words : string -> list string.
Variable dictionary : string -> bool.
Variable should_check : string -> bool.

Local Abbreviation sub_scores :=
  (Scorer.sub_scores polarity blob_words dictionary should_check).
Local Abbreviation evaluate :=
  (Scorer.evaluate_article_quality polarity blob_words dictionary should_check).
Local Abbreviation unknown := (SpellChecker.unknown dictionary should_check).

(** C1: for an article with at least one word, either flag and a
    non-empty keyword list, the five sub-scores are computed as the table
    of section 4.3 defines them, and the composite the result is built
    from is 0.4*readability + 0.1*vocabulary + 0.3*relevance + 0.1*effort
    + 0.1*spelling_error of exactly these. *)
Theorem C1_quality_is_weighted_sum
    (article : string) (is_generated : bool) (keywords : list string) :
  blob_words article <> [] -> keywords <> [] ->
  exists (s : Scorer.scores) (hits : nat),
    sub_scores article is_generated keywords = Py.Returns s
    /\ evaluate article is_generated keywords
       = (c <- Scorer.contributions s ;; Py.Returns (Scorer.score_percentage s, c))
    /\ Scorer.readability_score s = polarity article
    /\ (forall u, Spec.distinct_of (blob_words article) u ->
          Scorer.vocabulary_score s
          == Py.of_nat (List.length u) / Py.of_nat (List.length (blob_words article)))
    /\ Spec.tally (Spec.present article) keywords hits
    /\ Scorer.relevance_score s
       == Py.of_nat hits / Py.of_nat (List.length keywords)
    /\ Scorer.effort_score s = (if is_generated then 0 else 1)
    /\ Scorer.spelling_error_score s
       == 1 - Py.of_nat (List.length (unknown (blob_words article)))
              / Py.of_nat (List.length (blob_words article))
    /\ Scorer.quality_score s
       == Spec.quality (Scorer.readability_score s) (Scorer.vocabulary_score s)
            (Scorer.relevance_score s) (Scorer.effort_score s)
            (Scorer.spelling_error_score s).
Proof.
  intros Hw Hk.
  destruct (sub_scores_returns polarity blob_words dictionary should_check
              article is_generated keywords Hw Hk)
    as (v & sp & rel & Hv & Hsp & Hrel & Hs).
  rewrite (vocabulary_returns _ Hw) in Hv. injection Hv as <-.
  rewrite (spelling_error_returns dictionary should_check _ Hw) in Hsp.
  injection Hsp as <-.
  rewrite (relevance_returns article _ Hk) in Hrel. injection Hrel as <-.
  eexists. eexists. split; [exact Hs|].
  split; [now apply evaluate_unfold|]. cbn [Scorer.readability_score
    Scorer.vocabulary_score Scorer.relevance_score Scorer.effort_score
    Scorer.spelling_error_score].
  split; [reflexivity|]. split.
  { intros u Hu. now rewrite (distinct_length _ _ Hu). }
  split.
  { apply sum_bool_tally. intros k. apply contains_occurs. }
  split; [reflexivity|]. split; [apply effort_values|].
  split; reflexivity.
Qed.

(** The percentage is the rounded image of the composite. *)
Lemma evaluate_percentage
    (article : string) (flag : bool) (keywords : list string)
    (s : Scorer.scores) (p : Q) (c : list (string * Q)) :
  sub_scores article flag keywords = Py.Returns s ->
  evaluate article flag keywords = Py.Returns (p, c) ->
  p = Scorer.score_percentage s /\ Scorer.contributions s = Py.Returns c.
Proof.
  intros Hs He.
  rewrite (evaluate_unfold _ _ _ _ _ _ _ _ Hs) in He.
  destruct (Scorer.contributions s) as [c'|e]; simpl in He; [|discriminate].
  injection He as <- <-. split; reflexivity.
Qed.

(** Where [round((q + 1) * 50)] leaves the range 0 to 100. *)
Lemma score_percentage_out_of_range (s : Scorer.scores) :
  (Scorer.score_percentage s < 0 \/ 100 < Scorer.score_percentage s)
  <-> (Scorer.quality_score s < - (101 # 100) \/ 101 # 100 < Scorer.quality_score s).
Proof.
  unfold Scorer.score_percentage, Py.round0.
  set (z := (Scorer.quality_score s + 1) * 50).
  assert (Hz : z == (Scorer.quality_score s + 1) * 50) by reflexivity.
  clearbody z.
  split.
  - intros [H|H].
    + left. destruct (Qlt_le_dec z (- (1 # 2))) as [L|L]; [lra|].
      apply round_half_even_from_0 in L.
      change 0 with (inject_Z 0) in H. rewrite <- Zlt_Qlt in H. lia.
    + right. destruct (Qlt_le_dec (201 # 2) z) as [L|L]; [lra|].
      apply round_half_even_upto_100 in L.
      change 100 with (inject_Z 100) in H. rewrite <- Zlt_Qlt in H. lia.
  - intros [H|H].
    + left. change 0 with (inject_Z 0). rewrite <- Zlt_Qlt.
      apply round_half_even_below_0. lra.
    + right. change 100 with (inject_Z 100). rewrite <- Zlt_Qlt.
      apply round_half_even_above_100. lra.
Qed.


(** C4: with the article and a non-empty keyword list fixed, the
    percentage returned for is_generated = false is at least the one
    returned for is_generated = true; the effort sub-score is 1 for false
    and 0 for true, the other four sub-scores agree. *)
Theorem C4_not_generated_scores_at_least
    (article : string) (keywords : list string) :
  keywords <> [] ->
  (forall p1 c1 p0 c0,
      evaluate article false keywords = Py.Returns (p1, c1) ->
      evaluate article true keywords = Py.Returns (p0, c0) ->
      p0 <= p1)
  /\ (blob_words article <> [] ->
      exists s1 s0,
        sub_scores article false keywords = Py.Returns s1
        /\ sub_scores article true keywords = Py.Returns s0
        /\ Scorer.effort_score s1 = 1 /\ Scorer.effort_score s0 = 0
        /\ Scorer.readability_score s1 = Scorer.readability_score s0
        /\ Scorer.vocabulary_score s1 = Scorer.vocabulary_score s0
        /\ Scorer.relevance_score s1 = Scorer.relevance_score s0
        /\ Scorer.spelling_error_score s1 = Scorer.spelling_error_score s0
        /\ Scorer.score_percentage s0 <= Scorer.score_percentage s1).
Proof.
  intros Hk.
  assert (Hboth : blob_words article <> [] ->
      exists s1 s0,
        sub_scores article false keywords = Py.Returns s1
        /\ sub_scores article true keywords = Py.Returns s0
        /\ Scorer.effort_score s1 = 1 /\ Scorer.effort_score s0 = 0
        /\ Scorer.readability_score s1 = Scorer.readability_score s0
        /\ Scorer.vocabulary_score s1 = Scorer.vocabulary_score s0
        /\ Scorer.relevance_score s1 = Scorer.relevance_score s0
        /\ Scorer.spelling_error_score s1 = Scorer.spelling_error_score s0
        /\ Scorer.score_percentage s0 <= Scorer.score_percentage s1).
  { intros Hw.
    destruct (sub_scores_returns polarity blob_words dictionary should_check
                article false keywords Hw Hk)
      as (v & sp & rel & Hv & Hsp & Hrel & H1).
    destruct (sub_scores_returns polarity blob_words dictionary should_check
                article true keywords Hw Hk)
      as (v' & sp' & rel' & Hv' & Hsp' & Hrel' & H0).
    assert (v' = v) by congruence. assert (sp' = sp) by congruence.
    assert (rel' = rel) by congruence. subst v' sp' rel'.
    do 2 eexists. split; [exact H1|]. split; [exact H0|].
    cbn [Scorer.readability_score Scorer.vocabulary_score Scorer.relevance_score
         Scorer.effort_score Scorer.spelling_error_score].
    do 6 (split; [reflexivity|]).
    unfold Scorer.score_percentage, Py.round0. rewrite <- Zle_Qle.
    apply round_half_even_le.
    unfold Scorer.quality_score, Scorer.effort. simpl. lra. }
  split; [|exact Hboth].
  intros p1 c1 p0 c0 E1 E0.
  destruct (evaluate_inv _ _ _ _ _ _ _ _ _ E1) as (s1 & Hs1 & _ & ->).
  destruct (evaluate_inv _ _ _ _ _ _ _ _ _ E0) as (s0 & Hs0 & _ & ->).
  destruct (sub_scores_inv _ _ _ _ _ _ _ _ Hs1) as (Hw & _).
  destruct (Hboth Hw) as (t1 & t0 & Ht1 & Ht0 & _ & _ & _ & _ & _ & _ & Hle).
  assert (t1 = s1) by congruence. assert (t0 = s0) by congruence.
  subst. exact Hle.
Qed.

End Composite.

Lemma C1_witness :
  Demo.words "good plan for success exam 2023" <> []
  /\ ["exam"; "2023"; "missing"]%string <> []
  /\ exists s,
       Demo.sub_scores "good plan for success exam 2023" false
         ["exam"; "2023"; "missing"]%string = Py.Returns s
       /\ (Scorer.relevance_score s == 2 # 3)%Q.
Proof.
  assert (Hw : Demo.words "good plan for success exam 2023" <> [])
    by (vm_compute; discriminate).
  assert (Hk : ["exam"; "2023"; "missing"]%string <> []) by discriminate.
  split; [exact Hw|]. split; [exact Hk|].
  destruct (C1_quality_is_weighted_sum Demo.polarity Demo.words Demo.dictionary
              Demo.should_check "good plan for success exam 2023" false
              ["exam"; "2023"; "missing"]%string Hw Hk)
    as (s & hits & Hs & _ & _ & _ & _ & _ & _ & _ & _).
  exists s. split; [exact Hs|].
  vm_compute in Hs. injection Hs as <-. reflexivity.
Defined.


Lemma C4_witness :
  ["plan"%string] <> []
  /\ Demo.evaluate "good plan" false ["plan"%string]
     = Py.Returns (94%Q,
                   [ ("Readability"%string, (3182 # 100)%Q);
                     ("Vocabulary Richness"%string, (1136 # 100)%Q);
                     ("Relevance"%string, (3409 # 100)%Q);
                     ("Generated by ChatGPT"%string, (1136 # 100)%Q);
                     ("Spelling Error"%string, (1136 # 100)%Q) ])
  /\ Demo.evaluate "good plan" true ["plan"%string]
     = Py.Returns (89%Q,
                   [ ("Readability"%string, (3590 # 100)%Q);
                     ("Vocabulary Richness"%string, (1282 # 100)%Q);
                     ("Relevance"%string, (3846 # 100)%Q);
                     ("Generated by ChatGPT"%string, (0 # 100)%Q);
                     ("Spelling Error"%string, (1282 # 100)%Q) ])
  /\ (89 <= 94)%Q.
Proof.
  assert (Hk : ["plan"%string] <> []) by discriminate.
  split; [exact Hk|].
  assert (E1 : Demo.evaluate "good plan" false ["plan"%string]
               = Py.Returns (94%Q,
                   [ ("Readability"%string, (3182 # 100)%Q);
                     ("Vocabulary Richness"%string, (1136 # 100)%Q);
                     ("Relevance"%string, (3409 # 100)%Q);
                     ("Generated by ChatGPT"%string, (1136 # 100)%Q);
                     ("Spelling Error"%string, (1136 # 100)%Q) ]))
    by reflexivity.
  assert (E0 : Demo.evaluate "good plan" true ["plan"%string]
               = Py.Returns (89%Q,
                   [ ("Readability"%string, (3590 # 100)%Q);
                     ("Vocabulary Richness"%string, (1282 # 100)%Q);
                     ("Relevance"%string, (3846 # 100)%Q);
                     ("Generated by ChatGPT"%string, (0 # 100)%Q);
                     ("Spelling Error"%string, (1282 # 100)%Q) ]))
    by reflexivity.
  split; [exact E1|]. split; [exact E0|].
  exact (proj1 (C4_not_generated_scores_at_least Demo.polarity Demo.words
                  Demo.dictionary Demo.should_check "good plan"
                  ["plan"%string] Hk) _ _ _ _ E1 E0).
Defined.

(** * The sub-scores one by one *)

Section SubScoreClaims.

Local Open Scope Q_scope.

Variable polarity : string -> Q.
Variable blob_words : string -> list string.
Variable dictionary : string -> bool.
Variable should_check : string -> bool.

Local Abbreviation sub_scores :=
  (Scorer.sub_scores polarity blob_words dictionary should_check).
Local Abbreviation unknown := (SpellChecker.unknown dictionary should_check).

(** The quotient of line 110 against the tally of the present keywords. *)
Lemma relevance_tally (article : string) (keywords : list string) :
  keywords <> [] ->
  exists (r : Q) (hits : nat),
    Scorer.relevance article keywords = Py.Returns r
    /\ Spec.tally (Spec.present article) keywords hits
    /\ r == Py.of_nat hits / Py.of_nat (List.length keywords)
    /\ 0 <= r <= 1.
Proof.
  intros Hk.
  pose proof (relevance_returns article keywords Hk) as Hr.
  set (hits := Py.sum_bool
                 (map (fun keyword => Py.contains (Py.lower keyword) (Py.lower article))
                      keywords)) in Hr.
  exists (Py.of_nat hits / Py.of_nat (List.length keywords)), hits.
  split; [exact Hr|]. split.
  - apply sum_bool_tally. intros k. apply contains_occurs.
  - split; [reflexivity|exact (relevance_range article keywords _ Hr)].
Qed.

Lemma relevance_all_present (article : string) (keywords : list string) (r : Q) :
  Scorer.relevance article keywords = Py.Returns r ->
  Forall (Spec.present article) keywords -> r == 1.
Proof.
  intros Hr Hall.
  assert (Hk : keywords <> []) by (intros ->; discriminate).
  destruct (relevance_tally article keywords Hk) as (r' & hits & Hr' & Ht & Heq & _).
  assert (r' = r) by congruence. subst r'.
  rewrite Heq, (tally_unique _ _ _ _ Ht (tally_all _ _ Hall)).
  apply ratio_same. now apply length_pos.
Qed.

Lemma relevance_none_present (article : string) (keywords : list string) (r : Q) :
  Scorer.relevance article keywords = Py.Returns r ->
  Forall (fun k => ~ Spec.present article k) keywords -> r == 0.
Proof.
  intros Hr Hnone.
  assert (Hk : keywords <> []) by (intros ->; discriminate).
  destruct (relevance_tally article keywords Hk) as (r' & hits & Hr' & Ht & Heq & _).
  assert (r' = r) by congruence. subst r'.
  rewrite Heq, (tally_unique _ _ _ _ Ht (tally_none _ _ Hnone)).
  unfold Py.of_nat at 1. simpl. unfold Qdiv. apply Qmult_0_l.
Qed.

(** C5: for every article and every non-empty keyword list the relevance
    sub-score is the fraction of the keywords whose lower-case form is a
    substring of the lower-cased article; it is 1 when every keyword
    occurs, 0 when none does, and always between 0 and 1. *)
Theorem C5_relevance_is_fraction_present
    (article : string) (keywords : list string) :
  keywords <> [] ->
  exists (r : Q) (hits : nat),
    Scorer.relevance article keywords = Py.Returns r
    /\ Spec.tally (Spec.present article) keywords hits
    /\ r == Py.of_nat hits / Py.of_nat (List.length keywords)
    /\ 0 <= r <= 1
    /\ (Forall (Spec.present article) keywords -> r == 1)
    /\ (Forall (fun k => ~ Spec.present article k) keywords -> r == 0)
    /\ (forall flag s,
          sub_scores article flag keywords = Py.Returns s ->
          Scorer.relevance_score s = r).
Proof.
  intros Hk.
  destruct (relevance_tally article keywords Hk) as (r & hits & Hr & Ht & Heq & Hb).
  exists r, hits. do 4 (split; [assumption|]).
  split; [exact (relevance_all_present _ _ _ Hr)|].
  split; [exact (relevance_none_present _ _ _ Hr)|].
  intros flag s Hs.
  destruct (sub_scores_inv _ _ _ _ _ _ _ _ Hs) as (_ & _ & _ & _ & _ & Hrel & _).
  congruence.
Qed.

(** C6 (amended): for every article with at least one word the
    vocabulary sub-score, the number of distinct words over the number of
    words, is defined and lies in (0, 1]. *)
Theorem C6_vocabulary_in_unit_interval (article : string) :
  blob_words article <> [] ->
  exists v : Q,
    Scorer.vocabulary (blob_words article) = Py.Returns v
    /\ 0 < v <= 1
    /\ (forall u, Spec.distinct_of (blob_words article) u ->
          v == Py.of_nat (List.length u)
               / Py.of_nat (List.length (blob_words article)))
    /\ (forall flag keywords s,
          sub_scores article flag keywords = Py.Returns s ->
          Scorer.vocabulary_score s = v).
Proof.
  intros Hw.
  pose proof (vocabulary_returns _ Hw) as Hv.
  eexists. split; [exact Hv|].
  split; [exact (vocabulary_range _ _ Hv)|]. split.
  - intros u Hu. now rewrite (distinct_length _ _ Hu).
  - intros flag keywords s Hs.
    destruct (sub_scores_inv _ _ _ _ _ _ _ _ Hs) as (_ & _ & _ & Hvs & _).
    congruence.
Qed.

(** C9 (amended): for every article with at least one word the spelling
    sub-score lies in [0, 1]: every misspelled word is the lower-case
    form of a word of the article, so there are no more misspelled words
    than distinct words, nor than words, and 1 - misspelled/total is
    never negative. *)
Theorem C9_spelling_error_in_unit_interval (article : string) :
  blob_words article <> [] ->
  exists sp : Q,
    Scorer.spelling_error dictionary should_check (blob_words article)
    = Py.Returns sp
    /\ 0 <= sp <= 1
    /\ sp == 1 - Py.of_nat (List.length (unknown (blob_words article)))
                 / Py.of_nat (List.length (blob_words article))
    /\ (forall x, In x (unknown (blob_words article)) ->
          exists w, In w (Py.set (blob_words article)) /\ x = Py.lower w)
    /\ (List.length (unknown (blob_words article))
        <= List.length (Py.set (blob_words article)))%nat
    /\ (List.length (Py.set (blob_words article))
        <= List.length (blob_words article))%nat
    /\ (forall flag keywords s,
          sub_scores article flag keywords = Py.Returns s ->
          Scorer.spelling_error_score s = sp).
Proof.
  intros Hw.
  pose proof (spelling_error_returns dictionary should_check _ Hw) as Hsp.
  eexists. split; [exact Hsp|].
  split; [exact (spelling_error_range _ _ _ _ Hsp)|].
  split; [reflexivity|]. split; [|split; [|split]].
  - intros x Hx. apply unknown_In in Hx as (w & Hin & _ & -> & _).
    exists w. split; [now apply nodup_In|reflexivity].
  - apply unknown_length_le_set.
  - apply set_length_le.
  - intros flag keywords s Hs.
    destruct (sub_scores_inv _ _ _ _ _ _ _ _ Hs) as (_ & _ & _ & _ & Hss & _).
    congruence.
Qed.

(** C10: the empty keyword counts as present in every article, the empty
    one included, so any keyword list that holds it has a positive
    relevance, and a keyword list made only of empty strings has
    relevance 1: that is the value of line 110, the relevance sub-score
    of every call that gets there, and every call on an article with at
    least one word gets there. *)
Theorem C10_empty_keyword_always_present
    (article : string) (keywords : list string) :
  keywords <> [] ->
  (forall k, In k keywords -> k = EmptyString) ->
  Py.contains (Py.lower EmptyString) (Py.lower article) = true
  /\ Spec.present article EmptyString
  /\ (forall others : list string,
        exists r : Q,
          Scorer.relevance article (EmptyString :: others) = Py.Returns r
          /\ 0 < r)
  /\ (exists r : Q,
        Scorer.relevance article keywords = Py.Returns r /\ r == 1)
  /\ (forall flag s,
        sub_scores article flag keywords = Py.Returns s ->
        Scorer.relevance_score s == 1)
  /\ (blob_words article <> [] ->
      forall flag,
      exists s,
        sub_scores article flag keywords = Py.Returns s
        /\ Scorer.relevance_score s == 1).
Proof.
  intros Hk Hempty.
  assert (Hc : Py.contains (Py.lower EmptyString) (Py.lower article) = true)
    by apply contains_empty.
  assert (Hp : Spec.present article EmptyString) by now apply contains_occurs.
  assert (Hall : Forall (Spec.present article) keywords).
  { apply Forall_forall. intros k Hin. now rewrite (Hempty k Hin). }
  assert (Hlink : forall flag s,
             sub_scores article flag keywords = Py.Returns s ->
             Scorer.relevance_score s == 1).
  { intros flag s Hs.
    destruct (sub_scores_inv _ _ _ _ _ _ _ _ Hs) as (_ & _ & _ & _ & _ & Hrel & _).
    exact (relevance_all_present _ _ _ Hrel Hall). }
  split; [exact Hc|]. split; [exact Hp|]. split; [|split; [|split]].
  - intros others.
    rewrite (relevance_returns article (EmptyString :: others)) by discriminate.
    eexists. split; [reflexivity|].
    apply ratio_pos; [|simpl; lia].
    cbn [map]. rewrite sum_bool_cons, Hc. lia.
  - destruct (relevance_tally article keywords Hk) as (r & hits & Hr & _).
    exists r. split; [exact Hr|]. exact (relevance_all_present _ _ _ Hr Hall).
  - exact Hlink.
  - intros Hw flag.
    destruct (sub_scores_returns polarity blob_words dictionary should_check
                article flag keywords Hw Hk) as (v & sp & rel & _ & _ & _ & Hs).
    eexists. split; [exact Hs|]. exact (Hlink _ _ Hs).
Qed.

End SubScoreClaims.

(** With a polarity between -1 and 1 the composite stays between -0.4
    and 1, and the percentage between 0 and 100. *)
Lemma quality_score_in_range
    (polarity : string -> Q) (blob_words : string -> list string)
    (dictionary should_check : string -> bool)
    (article : string) (flag : bool) (keywords : list string) (s : Scorer.scores) :
  Scorer.sub_scores polarity blob_words dictionary should_check
    article flag keywords = Py.Returns s ->
  (-1 <= polarity article <= 1)%Q ->
  (- (4 # 10) < Scorer.quality_score s <= 1)%Q
  /\ (0 <= Scorer.score_percentage s <= 100)%Q.
Proof.
  intros Hs Hpol.
  destruct (sub_scores_inv _ _ _ _ _ _ _ _ Hs)
    as (_ & _ & Hr & Hv & Hsp & Hrel & He).
  apply vocabulary_range in Hv. apply spelling_error_range in Hsp.
  apply relevance_range in Hrel.
  assert (Heff : (0 <= Scorer.effort_score s <= 1)%Q).
  { rewrite He, effort_values. destruct flag; lra. }
  rewrite <- Hr in Hpol.
  assert (Hq : (- (4 # 10) < Scorer.quality_score s <= 1)%Q).
  { unfold Scorer.quality_score. lra. }
  split; [exact Hq|].
  pose proof (score_percentage_out_of_range s) as [Hout _].
  split.
  - destruct (Qlt_le_dec (Scorer.score_percentage s) 0) as [L|L]; [|exact L].
    exfalso. destruct (Hout (or_introl L)); lra.
  - destruct (Qlt_le_dec 100 (Scorer.score_percentage s)) as [L|L]; [|exact L].
    exfalso. destruct (Hout (or_intror L)); lra.
Qed.

Lemma C5_witness :
  ["exam"; "2023"; "missing"]%string <> []
  /\ exists r : Q,
       Scorer.relevance "Good plan for success exam 2023"
         ["exam"; "2023"; "missing"]%string = Py.Returns r
       /\ (r == 2 # 3)%Q /\ (0 <= r <= 1)%Q.
Proof.
  assert (Hk : ["exam"; "2023"; "missing"]%string <> []) by discriminate.
  split; [exact Hk|].
  destruct (C5_relevance_is_fraction_present Demo.polarity Demo.words
              Demo.dictionary Demo.should_check
              "Good plan for success exam 2023"
              ["exam"; "2023"; "missing"]%string Hk)
    as (r & hits & Hr & _ & _ & Hb & _).
  exists r. split; [exact Hr|]. split; [|exact Hb].
  vm_compute in Hr. injection Hr as <-. reflexivity.
Defined.

(** The claim of C6 as first stated fails on a text that is not empty and
    holds no word: a single blank has an empty word list, and the quotient
    of line 100 raises ZeroDivisionError. *)
Lemma C6_counterexample :
  " "%string <> EmptyString
  /\ Demo.words " " = []
  /\ Scorer.vocabulary (Demo.words " ") = Py.Raises Py.ZeroDivisionError
  /\ Demo.evaluate " " false ["exam"%string] = Py.Raises Py.ZeroDivisionError.
Proof.
  split; [discriminate|]. repeat split; reflexivity.
Qed.

Lemma C6_witness :
  Demo.words "good plan good" <> []
  /\ exists v : Q,
       Scorer.vocabulary (Demo.words "good plan good") = Py.Returns v
       /\ (0 < v <= 1)%Q /\ (v == 2 # 3)%Q.
Proof.
  assert (Hw : Demo.words "good plan good" <> []) by (vm_compute; discriminate).
  split; [exact Hw|].
  destruct (C6_vocabulary_in_unit_interval Demo.polarity Demo.words
              Demo.dictionary Demo.should_check "good plan good" Hw)
    as (v & Hv & Hb & _).
  exists v. split; [exact Hv|]. split; [exact Hb|].
  vm_compute in Hv. injection Hv as <-. reflexivity.
Defined.

(** The claim of C9 as first stated fails in its account of the
    misspelled words: the checker lower-cases before it looks a word up,
    so for the article "Helo" the misspelled set is {"helo"}, which is not
    a subset of the article's words {"Helo"}. *)
Lemma C9_counterexample :
  Demo.words "Helo" = ["Helo"%string]
  /\ SpellChecker.unknown Demo.dictionary Demo.should_check (Demo.words "Helo")
     = ["helo"%string]
  /\ ~ In "helo"%string (Py.set (Demo.words "Helo")).
Proof.
  split; [reflexivity|]. split; [reflexivity|].
  vm_compute. intros [H|[]]. discriminate.
Qed.

Lemma C9_witness :
  Demo.words "good plann" <> []
  /\ exists sp : Q,
       Scorer.spelling_error Demo.dictionary Demo.should_check
         (Demo.words "good plann") = Py.Returns sp
       /\ (0 <= sp <= 1)%Q /\ (sp == 1 # 2)%Q.
Proof.
  assert (Hw : Demo.words "good plann" <> []) by (vm_compute; discriminate).
  split; [exact Hw|].
  destruct (C9_spelling_error_in_unit_interval Demo.polarity Demo.words
              Demo.dictionary Demo.should_check "good plann" Hw)
    as (sp & Hsp & Hb & _).
  exists sp. split; [exact Hsp|]. split; [exact Hb|].
  vm_compute in Hsp. injection Hsp as <-. reflexivity.
Defined.

Lemma C10_witness :
  [EmptyString; EmptyString] <> []
  /\ (forall k, In k [EmptyString; EmptyString] -> k = EmptyString)
  /\ Demo.words "good plan" <> []
  /\ exists s : Scorer.scores,
       Demo.sub_scores "good plan" false [EmptyString; EmptyString] = Py.Returns s
       /\ (Scorer.relevance_score s == 1)%Q.
Proof.
  assert (Hk : [EmptyString; EmptyString] <> []) by discriminate.
  assert (He : forall k, In k [EmptyString; EmptyString] -> k = EmptyString).
  { intros k [<-|[<-|[]]]; reflexivity. }
  assert (Hw : Demo.words "good plan" <> []) by (vm_compute; discriminate).
  split; [exact Hk|]. split; [exact He|]. split; [exact Hw|].
  destruct (C10_empty_keyword_always_present Demo.polarity Demo.words
              Demo.dictionary Demo.should_check "good plan"
              [EmptyString; EmptyString] Hk He)
    as (_ & _ & _ & _ & _ & Hreach).
  exact (Hreach Hw false).
Defined.

(** * The fetcher *)

Section FetcherClaims.

Variable requests_get : string -> Py.outcome Fetcher.Response.

Local Abbreviation get_article := (Fetcher.get_article requests_get).

(** C7 (amended): when the response has a status code other than 200,
    [get_article] raises nothing: it returns the value False, and never
    an article text. *)
Theorem C7_other_status_returns_false
    (article_url : string) (response : Fetcher.Response) :
  requests_get article_url = Py.Returns response ->
  Fetcher.status_code response <> 200%Z ->
  get_article article_url = Py.Returns (Fetcher.Bool false)
  /\ (forall e, get_article article_url <> Py.Raises e)
  /\ (forall text, get_article article_url <> Py.Returns (Fetcher.Str text)).
Proof.
  intros Hget Hcode.
  assert (E : get_article article_url = Py.Returns (Fetcher.Bool false)).
  { unfold Fetcher.get_article. rewrite Hget. simpl.
    apply Z.eqb_neq in Hcode. now rewrite Hcode. }
  rewrite E. repeat split; intros; discriminate.
Qed.

(** What lines 37 and 38 collect: the text of every [p] element. *)
Local Abbreviation paragraphs response :=
  (map Soup.get_text (Soup.find_all "p" (Fetcher.content response))).

Lemma concat_no_separator (l : list string) :
  String.concat "" l = fold_right String.append EmptyString l.
Proof.
  induction l as [|x l IH]; [reflexivity|].
  destruct l as [|y l].
  - simpl. clear IH. induction x as [|c x IHx]; [reflexivity|].
    simpl. now rewrite <- IHx.
  - change (String.concat "" (x :: y :: l))
      with (x ++ "" ++ String.concat "" (y :: l))%string.
    rewrite IH. reflexivity.
Qed.

(** X21: when the response has status code 200, [get_article] returns
    the texts of all paragraph elements, joined in document order without
    a separator and passed once through the pattern: the result holds no
    newline and no tab, the pass only removes characters, and when the
    joined text holds no newline no markup tag is left.  Paragraphs "A"
    and "B" give "AB"; no paragraphs give the empty string. *)
Theorem get_article_returns_joined_paragraphs
    (article_url : string) (response : Fetcher.Response) :
  requests_get article_url = Py.Returns response ->
  Fetcher.status_code response = 200%Z ->
  exists text : string,
    get_article article_url = Py.Returns (Fetcher.Str text)
    /\ text = Re.sub (fold_right String.append EmptyString (paragraphs response))
    /\ ~ In Re.newline (Spec.chars text)
    /\ ~ In Re.tab (Spec.chars text)
    /\ (forall c, In c (Spec.chars text) ->
          In c (Spec.chars
                  (fold_right String.append EmptyString (paragraphs response))))
    /\ (~ In Re.newline
            (Spec.chars (fold_right String.append EmptyString (paragraphs response))) ->
        Spec.has_tag text = false)
    /\ (paragraphs response = ["A"; "B"]%string -> text = "AB"%string)
    /\ (paragraphs response = [] -> text = EmptyString).
Proof.
  intros Hget Hcode.
  exists (Re.sub (fold_right String.append EmptyString (paragraphs response))).
  split.
  { unfold Fetcher.get_article. rewrite Hget. simpl.
    rewrite Hcode. simpl. now rewrite concat_no_separator. }
  split; [reflexivity|].
  split; [intros H; now apply sub_chars in H as (_ & Hn & _)|].
  split; [intros H; now apply sub_chars in H as (_ & _ & Ht)|].
  split; [intros c H; now apply sub_chars in H|].
  split; [apply sub_no_tag|].
  split; intros ->; reflexivity.
Qed.

End FetcherClaims.

(** The claim of C7 as first stated fails on a 404 response: the call
    does not fail, it returns the value False. *)
Lemma C7_counterexample :
  Fetcher.get_article
    (fun _ => Py.Returns {| Fetcher.status_code := 404;
                            Fetcher.content :=
                              [Soup.Tag "p" [Soup.NavigableString "Not Found"]] |})
    "http://example.org/missing"
  = Py.Returns (Fetcher.Bool false)
  /\ ~ exists e,
         Fetcher.get_article
           (fun _ => Py.Returns {| Fetcher.status_code := 404;
                                   Fetcher.content :=
                                     [Soup.Tag "p" [Soup.NavigableString "Not Found"]] |})
           "http://example.org/missing"
         = Py.Raises e.
Proof.
  split; [reflexivity|]. intros [e H]. discriminate.
Qed.

Lemma C7_witness :
  Fetcher.get_article
    (fun _ => Py.Returns {| Fetcher.status_code := 500; Fetcher.content := [] |})
    "http://example.org/" = Py.Returns (Fetcher.Bool false).
Proof.
  refine (proj1 (C7_other_status_returns_false
                   (fun _ => Py.Returns {| Fetcher.status_code := 500;
                                           Fetcher.content := [] |})
                   "http://example.org/"
                   {| Fetcher.status_code := 500; Fetcher.content := [] |}
                   eq_refl _)).
  simpl. discriminate.
Defined.

(** C8: the tag-stripping pass misses a tag that runs over a line break:
    on a response with status 200 whose one paragraph has the text [<a],
    newline, [b>], [get_article] returns [<ab>], which still holds a
    markup tag, where the claim has every remaining tag removed. *)
Theorem C8_tag_over_line_break_is_left :
  Fetcher.get_article
    (fun _ => Py.Returns
                {| Fetcher.status_code := 200;
                   Fetcher.content :=
                     [Soup.Tag "p"
                        [Soup.NavigableString
                           ("<a" ++ String Re.newline "b>")%string]] |})
    "http://example.org/"
  = Py.Returns (Fetcher.Str "<ab>")
  /\ Spec.has_tag "<ab>" = true.
Proof.
  split; reflexivity.
Qed.

Lemma get_article_returns_joined_paragraphs_witness :
  exists text : string,
    Fetcher.get_article
      (fun _ => Py.Returns
                  {| Fetcher.status_code := 200;
                     Fetcher.content :=
                       [Soup.Tag "div"
                          [Soup.Tag "p" [Soup.NavigableString "A"];
                           Soup.NavigableString "skipped";
                           Soup.Tag "p" [Soup.NavigableString "B"]]] |})
      "http://example.org/"
    = Py.Returns (Fetcher.Str text)
    /\ text = "AB"%string.
Proof.
  destruct (get_article_returns_joined_paragraphs
              (fun _ => Py.Returns
                  {| Fetcher.status_code := 200;
                     Fetcher.content :=
                       [Soup.Tag "div"
                          [Soup.Tag "p" [Soup.NavigableString "A"];
                           Soup.NavigableString "skipped";
                           Soup.Tag "p" [Soup.NavigableString "B"]]] |})
              "http://example.org/" _ eq_refl eq_refl)
    as (text & Ht & _ & _ & _ & _ & _ & HAB & _).
  exists text. split; [exact Ht|]. apply HAB. reflexivity.
Defined.


(** * Further properties of the scorer *)

Section ScorerFurther.

Local Open Scope Q_scope.

(** Rounding moves a number by at most one half. *)
Lemma round_half_even_near (x : Q) :
  - (1 # 2) <= inject_Z (Py.round_half_even x) - x <= 1 # 2.
Proof.
  destruct (floor_bounds x) as [Hlo Hhi].
  destruct (round_half_even_cases x) as [[-> H]|[-> H]].
  - lra.
  - rewrite inject_Z_plus. change (inject_Z 1) with 1. lra.
Qed.


Lemma ratio_le_num (m u t : nat) :
  (m <= u)%nat -> (0 < t)%nat ->
  Py.of_nat m / Py.of_nat t <= Py.of_nat u / Py.of_nat t.
Proof.
  intros Hmu Ht. unfold Qdiv. apply Qmult_le_compat_r.
  - now apply of_nat_le.
  - apply Qinv_le_0_compat, of_nat_nonneg.
Qed.

Lemma of_nat_inj (m n : nat) : Py.of_nat m == Py.of_nat n -> m = n.
Proof.
  unfold Py.of_nat, Qeq. simpl. lia.
Qed.

Lemma ratio_one (m t : nat) :
  (0 < t)%nat -> (Py.of_nat m / Py.of_nat t == 1 <-> m = t).
Proof.
  intros Ht. pose proof (of_nat_pos t Ht) as Hpos. split.
  - intros H. apply of_nat_inj.
    rewrite <- (Qmult_div_r (Py.of_nat m) (Py.of_nat t)) by lra.
    rewrite H. ring.
  - intros ->. now apply ratio_same.
Qed.

Lemma ratio_zero (m t : nat) :
  (0 < t)%nat -> (Py.of_nat m / Py.of_nat t == 0 <-> m = 0%nat).
Proof.
  intros Ht. pose proof (of_nat_pos t Ht) as Hpos. split.
  - intros H. apply of_nat_inj.
    rewrite <- (Qmult_div_r (Py.of_nat m) (Py.of_nat t)) by lra.
    rewrite H. change (Py.of_nat 0) with 0. ring.
  - intros ->. change (Py.of_nat 0) with 0. unfold Qdiv. ring.
Qed.

(** A list has as many distinct elements as entries only when no entry
    repeats. *)
Lemma set_length_full (l : list string) :
  List.length (Py.set l) = List.length l <-> NoDup l.
Proof.
  split.
  - induction l as [|a l IH]; intros H; [constructor|].
    unfold Py.set in *. simpl in H.
    destruct (in_dec string_dec a l) as [Hin|Hout].
    + pose proof (set_length_le l) as Hle. unfold Py.set in Hle. lia.
    + simpl in H. constructor; [exact Hout|]. apply IH. lia.
  - intros H. unfold Py.set. now rewrite (nodup_fixed_point string_dec H).
Qed.

Variable polarity : string -> Q.
Variable blob_words : string -> list string.
Variable dictionary : string -> bool.
Variable should_check : string -> bool.

Local Abbreviation sub_scores :=
  (Scorer.sub_scores polarity blob_words dictionary should_check).
Local Abbreviation evaluate :=
  (Scorer.evaluate_article_quality polarity blob_words dictionary should_check).
Local Abbreviation unknown := (SpellChecker.unknown dictionary should_check).

(** X1: the vocabulary sub-score is 1 exactly when no word of the
    article occurs twice. *)
Theorem vocabulary_one_iff_no_repeat (words : list string) (v : Q) :
  Scorer.vocabulary words = Py.Returns v ->
  (v == 1 <-> NoDup words).
Proof.
  intros Hv.
  assert (Hw : words <> []) by (intros ->; discriminate).
  rewrite (vocabulary_returns words Hw) in Hv. injection Hv as <-.
  rewrite (ratio_one _ _ (length_pos _ words Hw)).
  apply set_length_full.
Qed.

(** X2: the spelling sub-score is 1 exactly when the lower-case form of
    every checked word is in the dictionary. *)
Theorem spelling_error_one_iff_all_known (words : list string) (sp : Q) :
  Scorer.spelling_error dictionary should_check words = Py.Returns sp ->
  (sp == 1 <->
   forall w, In w words -> should_check w = true ->
             dictionary (Py.lower w) = true).
Proof.
  intros Hsp.
  assert (Hw : words <> []) by (intros ->; discriminate).
  rewrite (spelling_error_returns dictionary should_check words Hw) in Hsp.
  injection Hsp as <-.
  pose proof (ratio_zero (List.length (unknown words)) _ (length_pos _ words Hw))
    as Hz.
  split.
  - intros H w Hin Hc.
    assert (Hnone : List.length (unknown words) = 0%nat) by (apply Hz; lra).
    destruct (dictionary (Py.lower w)) eqn:Hd; [reflexivity|].
    assert (Hx : In (Py.lower w) (unknown words)).
    { apply unknown_In. exists w. auto. }
    destruct (unknown words); [contradiction|discriminate].
  - intros Hall.
    assert (Hnone : List.length (unknown words) = 0%nat).
    { destruct (unknown words) as [|x l] eqn:E; [reflexivity|].
      assert (Hx : In x (unknown words)) by (rewrite E; now left).
      apply unknown_In in Hx as (w & Hin & Hc & -> & Hd).
      rewrite (Hall w Hin Hc) in Hd. discriminate. }
    apply Hz in Hnone. lra.
Qed.

Lemma spelling_vocabulary_sum
    (article : string) (flag : bool) (keywords : list string) (s : Scorer.scores) :
  sub_scores article flag keywords = Py.Returns s ->
  1 <= Scorer.spelling_error_score s + Scorer.vocabulary_score s.
Proof.
  intros Hs.
  destruct (sub_scores_inv _ _ _ _ _ _ _ _ Hs) as (Hw & _ & _ & Hv & Hsp & _).
  rewrite (vocabulary_returns _ Hw) in Hv.
  rewrite (spelling_error_returns dictionary should_check _ Hw) in Hsp.
  injection Hv as Hv. injection Hsp as Hsp. rewrite <- Hv, <- Hsp.
  pose proof (ratio_le_num _ _ _
                (unknown_length_le_set dictionary should_check (blob_words article))
                (length_pos _ _ Hw)).
  lra.
Qed.

(** X3: the spelling and the vocabulary sub-score add up to at least 1:
    the misspelled words are counted once each, like the distinct words,
    and both counts are divided by the number of words. *)
Theorem spelling_plus_vocabulary_at_least_one
    (article : string) (flag : bool) (keywords : list string) (s : Scorer.scores) :
  sub_scores article flag keywords = Py.Returns s ->
  1 <= Scorer.spelling_error_score s + Scorer.vocabulary_score s.
Proof.
  apply spelling_vocabulary_sum.
Qed.



(** The composite is at least 0.4 * polarity + 0.1. *)
Lemma quality_score_lower_bound
    (article : string) (flag : bool) (keywords : list string) (s : Scorer.scores) :
  sub_scores article flag keywords = Py.Returns s ->
  (4 # 10) * polarity article + (1 # 10) <= Scorer.quality_score s.
Proof.
  intros Hs.
  pose proof (spelling_vocabulary_sum _ _ _ _ Hs) as Hsum.
  destruct (sub_scores_inv _ _ _ _ _ _ _ _ Hs)
    as (_ & _ & Hr & _ & _ & Hrel & He).
  apply relevance_range in Hrel.
  assert (Heff : 0 <= Scorer.effort_score s).
  { rewrite He, effort_values. destruct flag; lra. }
  unfold Scorer.quality_score. rewrite Hr. lra.
Qed.

(** X6: when the polarity of the article lies between -1 and 1, every
    percentage the call returns lies between 35 and 100. *)
Theorem percentage_between_35_and_100
    (article : string) (flag : bool) (keywords : list string)
    (p : Q) (c : list (string * Q)) :
  evaluate article flag keywords = Py.Returns (p, c) ->
  -1 <= polarity article <= 1 ->
  35 <= p <= 100.
Proof.
  intros He Hpol.
  destruct (evaluate_inv _ _ _ _ _ _ _ _ _ He) as (s & Hs & _ & ->).
  destruct (quality_score_in_range _ _ _ _ _ _ _ _ Hs Hpol) as [_ [_ Hhi]].
  pose proof (quality_score_lower_bound _ _ _ _ Hs) as Hlo.
  split; [|exact Hhi].
  unfold Scorer.score_percentage, Py.round0.
  change 35 with (inject_Z 35). rewrite <- Zle_Qle.
  change 35%Z with (Py.round_half_even 35).
  apply round_half_even_le. lra.
Qed.


(** X8: when the call returns for both values of the flag, the
    percentage for is_generated = false is 4, 5 or 6 points above the
    one for is_generated = true. *)
Theorem generated_flag_costs_about_five
    (article : string) (keywords : list string)
    (p1 p0 : Q) (c1 c0 : list (string * Q)) :
  evaluate article false keywords = Py.Returns (p1, c1) ->
  evaluate article true keywords = Py.Returns (p0, c0) ->
  4 <= p1 - p0 <= 6.
Proof.
  intros E1 E0.
  destruct (evaluate_inv _ _ _ _ _ _ _ _ _ E1) as (s1 & Hs1 & _ & ->).
  destruct (evaluate_inv _ _ _ _ _ _ _ _ _ E0) as (s0 & Hs0 & _ & ->).
  destruct (sub_scores_inv _ _ _ _ _ _ _ _ Hs1)
    as (_ & _ & Hr1 & Hv1 & Hsp1 & Hrel1 & He1).
  destruct (sub_scores_inv _ _ _ _ _ _ _ _ Hs0)
    as (_ & _ & Hr0 & Hv0 & Hsp0 & Hrel0 & He0).
  assert (Hq : Scorer.quality_score s1 == Scorer.quality_score s0 + (1 # 10)).
  { unfold Scorer.quality_score.
    rewrite Hr1, Hr0, He1, He0.
    replace (Scorer.vocabulary_score s1) with (Scorer.vocabulary_score s0)
      by congruence.
    replace (Scorer.relevance_score s1) with (Scorer.relevance_score s0)
      by congruence.
    replace (Scorer.spelling_error_score s1) with (Scorer.spelling_error_score s0)
      by congruence.
    rewrite !effort_values. ring. }
  unfold Scorer.score_percentage, Py.round0.
  pose proof (round_half_even_near ((Scorer.quality_score s1 + 1) * 50)) as H1.
  pose proof (round_half_even_near ((Scorer.quality_score s0 + 1) * 50)) as H0.
  set (r1 := Py.round_half_even ((Scorer.quality_score s1 + 1) * 50)) in *.
  set (r0 := Py.round_half_even ((Scorer.quality_score s0 + 1) * 50)) in *.
  assert (Hd : 4 <= inject_Z (r1 - r0) <= 6).
  { assert (Hlt : inject_Z 3 < inject_Z (r1 - r0) < inject_Z 7).
    { unfold Zminus. rewrite inject_Z_plus, inject_Z_opp.
      change (inject_Z 3) with 3. change (inject_Z 7) with 7. lra. }
    destruct Hlt as [Hl Hu]. rewrite <- Zlt_Qlt in Hl, Hu.
    change 4 with (inject_Z 4). change 6 with (inject_Z 6).
    rewrite <- !Zle_Qle. lia. }
  unfold Zminus in Hd. rewrite inject_Z_plus, inject_Z_opp in Hd. lra.
Qed.

End ScorerFurther.

(** * Further properties of the relevance sub-score *)

Section RelevanceFurther.

Local Open Scope Q_scope.

Lemma lower_char_idempotent (c : ascii) :
  Py.lower_char (Py.lower_char c) = Py.lower_char c.
Proof.
  destruct c as [[] [] [] [] [] [] [] []]; reflexivity.
Qed.

Lemma lower_idempotent (s : string) : Py.lower (Py.lower s) = Py.lower s.
Proof.
  induction s as [|c s IH]; simpl; [reflexivity|].
  now rewrite lower_char_idempotent, IH.
Qed.

Lemma lower_append (s t : string) :
  Py.lower (s ++ t) = (Py.lower s ++ Py.lower t)%string.
Proof.
  induction s as [|c s IH]; simpl; [reflexivity|]. now rewrite IH.
Qed.

Lemma sum_bool_permutation (bs bs' : list bool) :
  Permutation bs bs' -> Py.sum_bool bs = Py.sum_bool bs'.
Proof.
  induction 1 as [|b l l' _ IH|a b l|l l' l'' _ IH1 _ IH2].
  - reflexivity.
  - now rewrite !sum_bool_cons, IH.
  - rewrite !sum_bool_cons. lia.
  - now rewrite IH1.
Qed.

Lemma sum_bool_monotone (f g : string -> bool) (l : list string) :
  (forall k, f k = true -> g k = true) ->
  (Py.sum_bool (map f l) <= Py.sum_bool (map g l))%nat.
Proof.
  intros Hfg. induction l as [|k l IH]; simpl; [reflexivity|].
  rewrite !sum_bool_cons.
  destruct (f k) eqn:Ef; [rewrite (Hfg k Ef)|destruct (g k)]; simpl; lia.
Qed.

Lemma string_append_assoc (s t u : string) :
  ((s ++ t) ++ u = s ++ (t ++ u))%string.
Proof.
  induction s as [|c s IH]; simpl; [reflexivity|]. now rewrite IH.
Qed.

(** A keyword present in an article is present in any text around it. *)
Lemma present_in_context (pre article post keyword : string) :
  Spec.present article keyword ->
  Spec.present (pre ++ article ++ post) keyword.
Proof.
  unfold Spec.present, Spec.occurs. intros (a & b & E).
  rewrite !lower_append, E.
  exists (Py.lower pre ++ a)%string, (b ++ Py.lower post)%string.
  now rewrite !string_append_assoc.
Qed.

Lemma relevance_lower_article (article : string) (keywords : list string) :
  Scorer.relevance (Py.lower article) keywords = Scorer.relevance article keywords.
Proof.
  unfold Scorer.relevance. now rewrite lower_idempotent.
Qed.

Lemma relevance_lower_keywords (article : string) (keywords : list string) :
  Scorer.relevance article (map Py.lower keywords)
  = Scorer.relevance article keywords.
Proof.
  unfold Scorer.relevance. rewrite map_map, length_map.
  do 3 f_equal. apply map_ext. intros k. now rewrite lower_idempotent.
Qed.

Lemma relevance_permutation (article : string) (keywords keywords' : list string) :
  Permutation keywords keywords' ->
  Scorer.relevance article keywords = Scorer.relevance article keywords'.
Proof.
  intros Hp. unfold Scorer.relevance.
  rewrite (Permutation_length Hp).
  rewrite (sum_bool_permutation _ _
             (Permutation_map
                (fun keyword => Py.contains (Py.lower keyword) (Py.lower article)) Hp)).
  reflexivity.
Qed.

Variable polarity : string -> Q.
Variable blob_words : string -> list string.
Variable dictionary : string -> bool.
Variable should_check : string -> bool.

Local Abbreviation evaluate :=
  (Scorer.evaluate_article_quality polarity blob_words dictionary should_check).

(** X9: the case of the keywords does not matter: with the keywords
    lower-cased the call gives the same result or the same error; the
    relevance alone is also the same for the lower-cased article. *)
Theorem keyword_case_is_irrelevant
    (article : string) (flag : bool) (keywords : list string) :
  evaluate article flag (map Py.lower keywords) = evaluate article flag keywords
  /\ Scorer.relevance (Py.lower article) keywords
     = Scorer.relevance article keywords.
Proof.
  split; [|apply relevance_lower_article].
  unfold Scorer.evaluate_article_quality, Scorer.sub_scores.
  now rewrite relevance_lower_keywords.
Qed.

(** X10: the order of the keywords does not matter: a rearranged keyword
    list gives the same relevance and the same result or error. *)
Theorem keyword_order_is_irrelevant
    (article : string) (flag : bool) (keywords keywords' : list string) :
  Permutation keywords keywords' ->
  Scorer.relevance article keywords = Scorer.relevance article keywords'
  /\ evaluate article flag keywords = evaluate article flag keywords'.
Proof.
  intros Hp. pose proof (relevance_permutation article _ _ Hp) as Hr.
  split; [exact Hr|].
  unfold Scorer.evaluate_article_quality, Scorer.sub_scores.
  now rewrite Hr.
Qed.

(** X11: for texts of ASCII characters, on which lower-casing works
    character by character, text added before or after an article never
    lowers its relevance. *)
Theorem relevance_grows_with_article
    (pre article post : string) (keywords : list string) :
  Str.isascii pre = true -> Str.isascii article = true ->
  Str.isascii post = true ->
  keywords <> [] ->
  exists r r' : Q,
    Scorer.relevance article keywords = Py.Returns r
    /\ Scorer.relevance (pre ++ article ++ post) keywords = Py.Returns r'
    /\ r <= r'.
Proof.
  intros _ _ _ Hk.
  rewrite (relevance_returns article keywords Hk),
    (relevance_returns (pre ++ article ++ post) keywords Hk).
  do 2 eexists. split; [reflexivity|]. split; [reflexivity|].
  apply ratio_le_num; [|now apply length_pos].
  apply sum_bool_monotone. intros k Hin.
  apply contains_occurs. apply (present_in_context pre article post k).
  now apply contains_occurs.
Qed.

End RelevanceFurther.

(** * The keyword field of the request handler *)

Section KeywordField.

Local Open Scope Q_scope.

Lemma split_comma_nonempty (s : string) : Index.split_comma s <> [].
Proof.
  destruct s as [|c s]; simpl; [discriminate|].
  destruct (Ascii.eqb c Index.comma); [discriminate|].
  destruct (Index.split_comma s); discriminate.
Qed.

Lemma split_comma_length (s : string) :
  List.length (Index.split_comma s)
  = S (count_occ ascii_dec (Spec.chars s) Index.comma).
Proof.
  induction s as [|c s IH]; [reflexivity|].
  cbn [Index.split_comma Spec.chars count_occ].
  destruct (Ascii.eqb c Index.comma) eqn:E.
  - apply Ascii.eqb_eq in E. subst c.
    destruct (ascii_dec Index.comma Index.comma); [|congruence].
    simpl. now rewrite IH.
  - apply Ascii.eqb_neq in E.
    destruct (ascii_dec c Index.comma); [contradiction|].
    rewrite <- IH.
    pose proof (split_comma_nonempty s).
    destruct (Index.split_comma s); [congruence|reflexivity].
Qed.

(** The pieces hold characters of the field only, and no comma. *)
Lemma split_comma_chars (s piece : string) (c : ascii) :
  In piece (Index.split_comma s) -> In c (Spec.chars piece) ->
  In c (Spec.chars s) /\ c <> Index.comma.
Proof.
  revert piece. induction s as [|a s IH]; intros piece; simpl.
  - intros [<-|[]] [].
  - destruct (Ascii.eqb a Index.comma) eqn:E.
    + intros [<-|Hin] Hc; [destruct Hc|].
      destruct (IH piece Hin Hc). auto.
    + apply Ascii.eqb_neq in E.
      pose proof (split_comma_nonempty s) as Hne.
      destruct (Index.split_comma s) as [|p rest]; [congruence|].
      intros [<-|Hin] Hc.
      * destruct Hc as [<-|Hc]; [auto|].
        destruct (IH p (or_introl eq_refl) Hc). auto.
      * destruct (IH piece (or_intror Hin) Hc). auto.
Qed.

Lemma lstrip_chars (s : string) (c : ascii) :
  In c (Spec.chars (Index.lstrip s)) -> In c (Spec.chars s).
Proof.
  induction s as [|a s IH]; simpl; [auto|].
  destruct (Index.isspace a); simpl; auto.
Qed.

Lemma rstrip_chars (s : string) (c : ascii) :
  In c (Spec.chars (Index.rstrip s)) -> In c (Spec.chars s).
Proof.
  induction s as [|a s IH]; simpl; [auto|].
  destruct (Index.rstrip s) as [|b r].
  - destruct (Index.isspace a); simpl; [contradiction|]. intros [<-|[]]. auto.
  - simpl. intros [<-|H]; [auto|]. right. apply IH. exact H.
Qed.

Lemma strip_chars (s : string) (c : ascii) :
  In c (Spec.chars (Index.strip s)) -> In c (Spec.chars s).
Proof.
  unfold Index.strip. intros H. now apply lstrip_chars, rstrip_chars.
Qed.

Lemma lstrip_starts (s : string) :
  Index.starts_with_space (Index.lstrip s) = false.
Proof.
  induction s as [|a s IH]; simpl; [reflexivity|].
  destruct (Index.isspace a) eqn:E; [exact IH|]. simpl. exact E.
Qed.

Lemma rstrip_starts (s : string) :
  Index.starts_with_space s = false ->
  Index.starts_with_space (Index.rstrip s) = false.
Proof.
  destruct s as [|a s]; simpl; [reflexivity|]. intros Ha.
  destruct (Index.rstrip s); [rewrite Ha|]; simpl; exact Ha.
Qed.

Lemma rstrip_ends (s : string) :
  Index.ends_with_space (Index.rstrip s) = false.
Proof.
  induction s as [|a s IH]; simpl; [reflexivity|].
  destruct (Index.rstrip s) as [|b r].
  - destruct (Index.isspace a) eqn:E; simpl; [reflexivity|exact E].
  - exact IH.
Qed.

(** A string of white space strips to nothing. *)
Lemma strip_blank (s : string) :
  (forall c, In c (Spec.chars s) -> Index.isspace c = true) ->
  Index.strip s = EmptyString.
Proof.
  intros Hs. unfold Index.strip.
  assert (E : Index.lstrip s = EmptyString).
  { induction s as [|a s IH]; simpl; [reflexivity|].
    rewrite (Hs a (or_introl eq_refl)). apply IH.
    intros c Hc. apply Hs. now right. }
  now rewrite E.
Qed.

Lemma keywords_nonempty_aux (relevant_keywords_input : string) :
  Index.relevant_keywords_list relevant_keywords_input <> [].
Proof.
  unfold Index.relevant_keywords_list.
  pose proof (split_comma_nonempty relevant_keywords_input) as H.
  destruct (Index.split_comma relevant_keywords_input); [congruence|discriminate].
Qed.

(** X12: the keyword list of a form field is never empty: it has one
    entry more than the field has commas. *)
Theorem keywords_one_more_than_commas (relevant_keywords_input : string) :
  Index.relevant_keywords_list relevant_keywords_input <> []
  /\ List.length (Index.relevant_keywords_list relevant_keywords_input)
     = S (count_occ ascii_dec (Spec.chars relevant_keywords_input) Index.comma).
Proof.
  split; [apply keywords_nonempty_aux|].
  unfold Index.relevant_keywords_list.
  rewrite length_map. apply split_comma_length.
Qed.

(** X13: a keyword of the list holds no comma and neither starts nor ends
    with white space. *)
Theorem keywords_are_trimmed (relevant_keywords_input keyword : string) :
  In keyword (Index.relevant_keywords_list relevant_keywords_input) ->
  ~ In Index.comma (Spec.chars keyword)
  /\ Index.starts_with_space keyword = false
  /\ Index.ends_with_space keyword = false.
Proof.
  unfold Index.relevant_keywords_list. intros H.
  apply in_map_iff in H as (piece & <- & Hin). split; [|split].
  - intros Hc. apply strip_chars in Hc.
    destruct (split_comma_chars _ _ _ Hin Hc) as [_ Hne]. congruence.
  - unfold Index.strip. apply rstrip_starts, lstrip_starts.
  - unfold Index.strip. apply rstrip_ends.
Qed.

(** X14: with the keyword list of a form field the relevance is always
    defined, whatever the field and the article; a field of white space
    and commas only, the empty field included, gives relevance 1. *)
Theorem relevance_of_keyword_field (article relevant_keywords_input : string) :
  exists r : Q,
    Scorer.relevance article (Index.relevant_keywords_list relevant_keywords_input)
    = Py.Returns r
    /\ 0 <= r <= 1
    /\ ((forall c, In c (Spec.chars relevant_keywords_input) ->
                   Index.isspace c = true \/ c = Index.comma) ->
        r == 1).
Proof.
  pose proof (keywords_nonempty_aux relevant_keywords_input) as Hk.
  destruct (relevance_tally article _ Hk) as (r & hits & Hr & _ & _ & Hb).
  exists r. split; [exact Hr|]. split; [exact Hb|].
  intros Hblank. apply (relevance_all_present _ _ _ Hr).
  apply Forall_forall. intros k Hin.
  unfold Index.relevant_keywords_list in Hin.
  apply in_map_iff in Hin as (piece & <- & Hp).
  rewrite strip_blank.
  - apply contains_occurs, contains_empty.
  - intros c Hc. destruct (split_comma_chars _ _ _ Hp Hc) as [Hin Hne].
    destruct (Hblank c Hin); [assumption|contradiction].
Qed.

End KeywordField.

(** * Further properties of the fetcher *)

Section FetcherFurther.

Lemma lazy_dots_gt_length (t r : string) :
  Re.lazy_dots_gt t = Some r -> String.length r < String.length t.
Proof.
  revert r. induction t as [|a t IH]; simpl; intros r Hr; [discriminate|].
  destruct (Ascii.eqb a Re.gt_sign).
  - injection Hr as <-. lia.
  - destruct (Ascii.eqb a Re.newline); [discriminate|].
    specialize (IH _ Hr). lia.
Qed.

Lemma match_at_length (s r : string) :
  Re.match_at s = Some r -> String.length r < String.length s.
Proof.
  destruct s as [|c s]; simpl; [discriminate|].
  destruct (Ascii.eqb c Re.lt_sign).
  - intros H. apply lazy_dots_gt_length in H. lia.
  - destruct (Ascii.eqb c Re.newline); [intros [= <-]; lia|].
    destruct (Ascii.eqb c Re.tab); [intros [= <-]; lia|discriminate].
Qed.

Lemma sub_length (s : string) : String.length (Re.sub s) <= String.length s.
Proof.
  funelim (Re.sub s).
  - reflexivity.
  - pose proof (match_at_length _ _ e). lia.
  - simpl. lia.
Qed.

Lemma lazy_dots_gt_no_gt (t : string) :
  existsb (Ascii.eqb Re.gt_sign) (Spec.chars t) = false ->
  Re.lazy_dots_gt t = None.
Proof.
  induction t as [|a t IH]; cbn [Spec.chars existsb Re.lazy_dots_gt];
    [reflexivity|].
  rewrite orb_false_iff, (Ascii.eqb_sym Re.gt_sign a). intros [-> Ht].
  destruct (Ascii.eqb a Re.newline); [reflexivity|now apply IH].
Qed.

(** A text without tag, newline and tab passes unchanged. *)
Lemma sub_fixed (t : string) :
  Spec.has_tag t = false ->
  (forall c, In c (Spec.chars t) -> c <> Re.newline /\ c <> Re.tab) ->
  Re.sub t = t.
Proof.
  induction t as [|a t IH]; intros Htag Hws; [reflexivity|].
  cbn [Spec.has_tag] in Htag. apply orb_false_iff in Htag as [Hhead Htail].
  destruct (Hws a (or_introl eq_refl)) as [Hn Ht].
  apply Ascii.eqb_neq in Hn, Ht.
  assert (E : Re.match_at (String a t) = None).
  { cbn [Re.match_at]. rewrite Hn, Ht.
    destruct (Ascii.eqb a Re.lt_sign); [|reflexivity].
    apply lazy_dots_gt_no_gt. exact Hhead. }
  rewrite (sub_keep a t E), IH; [reflexivity|exact Htail|].
  intros c Hc. apply Hws. now right.
Qed.

(** X15: the pass of the pattern never makes a text longer, and on a
    text without a newline a second pass changes nothing. *)
Theorem sub_shrinks_and_settles (s : string) :
  String.length (Re.sub s) <= String.length s
  /\ (~ In Re.newline (Spec.chars s) -> Re.sub (Re.sub s) = Re.sub s).
Proof.
  split; [apply sub_length|].
  intros Hnl. apply sub_fixed; [now apply sub_no_tag|].
  intros c Hc. now apply sub_chars in Hc as (_ & Hn & Ht).
Qed.

Variable requests_get : string -> Py.outcome Fetcher.Response.

(** X16: on a response with status 200 whose paragraph texts hold no
    [<], no newline and no tab, the article is exactly the paragraph
    texts put one after the other. *)
Theorem get_article_keeps_plain_text
    (article_url : string) (response : Fetcher.Response) :
  requests_get article_url = Py.Returns response ->
  Fetcher.status_code response = 200%Z ->
  (forall c,
      In c (Spec.chars
              (fold_right String.append EmptyString
                 (map Soup.get_text
                    (Soup.find_all "p" (Fetcher.content response))))) ->
      c <> Re.lt_sign /\ c <> Re.newline /\ c <> Re.tab) ->
  Fetcher.get_article requests_get article_url
  = Py.Returns
      (Fetcher.Str
         (fold_right String.append EmptyString
            (map Soup.get_text (Soup.find_all "p" (Fetcher.content response))))).
Proof.
  intros Hget Hcode Hplain.
  unfold Fetcher.get_article. rewrite Hget. simpl. rewrite Hcode. simpl.
  rewrite concat_no_separator, (sub_plain _ Hplain). reflexivity.
Qed.

End FetcherFurther.

(** * The generation detector *)

Section DetectorProperties.

Local Open Scope Q_scope.

Lemma pad_length (x : list Z) (n : nat) :
  List.length (Detector.pad x n) = (List.length x + n)%nat.
Proof. unfold Detector.pad. now rewrite length_app, repeat_length. Qed.

Lemma pad_both_lengths (inputs outputs : list Z) :
  List.length (fst (Detector.pad_both inputs outputs))
  = Nat.max (List.length inputs) (List.length outputs)
  /\ List.length (snd (Detector.pad_both inputs outputs))
     = Nat.max (List.length inputs) (List.length outputs).
Proof.
  unfold Detector.pad_both. cbn [fst snd]. rewrite !pad_length. lia.
Qed.

(** X17: after the padding both token sequences have the length of the
    longer one, each still starts with its own tokens, and the longer
    one is unchanged. *)
Theorem pad_both_equal_length (inputs outputs : list Z) :
  List.length (fst (Detector.pad_both inputs outputs))
  = Nat.max (List.length inputs) (List.length outputs)
  /\ List.length (snd (Detector.pad_both inputs outputs))
     = Nat.max (List.length inputs) (List.length outputs)
  /\ firstn (List.length inputs) (fst (Detector.pad_both inputs outputs)) = inputs
  /\ firstn (List.length outputs) (snd (Detector.pad_both inputs outputs)) = outputs
  /\ ((List.length outputs <= List.length inputs)%nat ->
      fst (Detector.pad_both inputs outputs) = inputs)
  /\ ((List.length inputs <= List.length outputs)%nat ->
      snd (Detector.pad_both inputs outputs) = outputs).
Proof.
  unfold Detector.pad_both. cbn [fst snd].
  rewrite !pad_length. unfold Detector.pad.
  split; [lia|]. split; [lia|].
  split; [now rewrite firstn_app, Nat.sub_diag, firstn_all, app_nil_r|].
  split; [now rewrite firstn_app, Nat.sub_diag, firstn_all, app_nil_r|].
  split; intros H.
  - replace (Nat.max (List.length inputs) (List.length outputs) - List.length inputs)%nat
      with 0%nat by lia.
    apply app_nil_r.
  - replace (Nat.max (List.length inputs) (List.length outputs) - List.length outputs)%nat
      with 0%nat by lia.
    apply app_nil_r.
Qed.

Variable embedding : Z -> list Q.

Lemma flat_embeddings_length (d : nat) (tokens : list Z) :
  (forall t, List.length (embedding t) = d) ->
  List.length (Detector.flat_embeddings embedding tokens)
  = (List.length tokens * d)%nat.
Proof.
  intros Hd. unfold Detector.flat_embeddings.
  induction tokens as [|t ts IH]; simpl; [reflexivity|].
  now rewrite length_app, Hd, IH.
Qed.

(** X18: when every row of the embedding table has [d] entries, the two
    vectors handed to the cosine similarity have the same number of
    entries, [d] times the length of the longer token sequence. *)
Theorem embeddings_have_equal_length (d : nat) (inputs outputs : list Z) :
  (forall t, List.length (embedding t) = d) ->
  List.length (Detector.flat_embeddings embedding
                 (fst (Detector.pad_both inputs outputs)))
  = (Nat.max (List.length inputs) (List.length outputs) * d)%nat
  /\ List.length (Detector.flat_embeddings embedding
                    (snd (Detector.pad_both inputs outputs)))
     = (Nat.max (List.length inputs) (List.length outputs) * d)%nat.
Proof.
  intros Hd.
  destruct (pad_both_lengths inputs outputs) as [H1 H2].
  rewrite !(flat_embeddings_length d) by exact Hd.
  now rewrite H1, H2.
Qed.


End DetectorProperties.

(** * The further properties on the small instance *)

Lemma vocabulary_one_iff_no_repeat_witness :
  exists v : Q,
    Scorer.vocabulary ["good"; "plan"; "good"]%string = Py.Returns v
    /\ ((v == 1)%Q <-> NoDup ["good"; "plan"; "good"]%string).
Proof.
  eexists. split; [reflexivity|].
  apply vocabulary_one_iff_no_repeat. reflexivity.
Defined.

Lemma spelling_error_one_iff_all_known_witness :
  exists sp : Q,
    Scorer.spelling_error Demo.dictionary Demo.should_check
      ["Good"; "plan"; "2023"]%string = Py.Returns sp
    /\ ((sp == 1)%Q <->
        forall w, In w ["Good"; "plan"; "2023"]%string ->
                  Demo.should_check w = true ->
                  Demo.dictionary (Py.lower w) = true).
Proof.
  eexists. split; [reflexivity|].
  apply spelling_error_one_iff_all_known. reflexivity.
Defined.

Lemma spelling_plus_vocabulary_at_least_one_witness :
  exists s : Scorer.scores,
    Demo.sub_scores "good plann plann" false ["plan"%string] = Py.Returns s
    /\ (1 <= Scorer.spelling_error_score s + Scorer.vocabulary_score s)%Q.
Proof.
  eexists. split; [reflexivity|].
  apply (spelling_plus_vocabulary_at_least_one Demo.polarity Demo.words
           Demo.dictionary Demo.should_check "good plann plann" false
           ["plan"%string]).
  reflexivity.
Defined.


Lemma percentage_between_35_and_100_witness :
  exists (p : Q) (c : list (string * Q)),
    Demo.evaluate "unhappy plann" true ["exam"%string] = Py.Returns (p, c)
    /\ (-1 <= Demo.polarity "unhappy plann" <= 1)%Q
    /\ (35 <= p <= 100)%Q.
Proof.
  assert (Hpol : (-1 <= Demo.polarity "unhappy plann" <= 1)%Q)
    by (split; discriminate).
  do 2 eexists. split; [reflexivity|]. split; [exact Hpol|].
  eapply (percentage_between_35_and_100 Demo.polarity Demo.words
            Demo.dictionary Demo.should_check "unhappy plann" true
            ["exam"%string]); [reflexivity|exact Hpol].
Defined.

Lemma keyword_order_is_irrelevant_witness :
  Permutation ["exam"; "plan"; "missing"]%string ["plan"; "missing"; "exam"]%string
  /\ Demo.evaluate "good plan" false ["exam"; "plan"; "missing"]%string
     = Demo.evaluate "good plan" false ["plan"; "missing"; "exam"]%string.
Proof.
  assert (Hp : Permutation ["exam"; "plan"; "missing"]%string
                 ["plan"; "missing"; "exam"]%string).
  { exact (Permutation_cons_append ["plan"; "missing"]%string "exam"%string). }
  split; [exact Hp|].
  exact (proj2 (keyword_order_is_irrelevant Demo.polarity Demo.words
                  Demo.dictionary Demo.should_check "good plan" false _ _ Hp)).
Defined.

Lemma relevance_grows_with_article_witness :
  Str.isascii "good " = true /\ Str.isascii "plan" = true
  /\ Str.isascii " for the exam" = true
  /\ ["plan"; "exam"]%string <> []
  /\ exists r r' : Q,
       Scorer.relevance "plan" ["plan"; "exam"]%string = Py.Returns r
       /\ Scorer.relevance ("good " ++ "plan" ++ " for the exam")
            ["plan"; "exam"]%string = Py.Returns r'
       /\ (r <= r')%Q.
Proof.
  assert (Hk : ["plan"; "exam"]%string <> []) by discriminate.
  split; [reflexivity|]. split; [reflexivity|]. split; [reflexivity|].
  split; [exact Hk|].
  exact (relevance_grows_with_article "good " "plan" " for the exam"
           ["plan"; "exam"]%string eq_refl eq_refl eq_refl Hk).
Defined.

Lemma keywords_are_trimmed_witness :
  In "IBPS Clerk"%string (Index.relevant_keywords_list " study plan ,IBPS Clerk , exam")
  /\ ~ In Index.comma (Spec.chars "IBPS Clerk")
  /\ Index.starts_with_space "IBPS Clerk" = false
  /\ Index.ends_with_space "IBPS Clerk" = false.
Proof.
  assert (Hin : In "IBPS Clerk"%string
                  (Index.relevant_keywords_list " study plan ,IBPS Clerk , exam"))
    by (vm_compute; right; left; reflexivity).
  split; [exact Hin|].
  exact (keywords_are_trimmed " study plan ,IBPS Clerk , exam" "IBPS Clerk" Hin).
Defined.

Lemma get_article_keeps_plain_text_witness :
  Fetcher.get_article
    (fun _ => Py.Returns
                {| Fetcher.status_code := 200;
                   Fetcher.content :=
                     [Soup.Tag "p" [Soup.NavigableString "a > b"];
                      Soup.Tag "p" [Soup.NavigableString "."]] |})
    "http://example.org/"
  = Py.Returns (Fetcher.Str "a > b.").
Proof.
  apply (get_article_keeps_plain_text
           (fun _ => Py.Returns
                {| Fetcher.status_code := 200;
                   Fetcher.content :=
                     [Soup.Tag "p" [Soup.NavigableString "a > b"];
                      Soup.Tag "p" [Soup.NavigableString "."]] |})
           "http://example.org/"
           {| Fetcher.status_code := 200;
              Fetcher.content :=
                [Soup.Tag "p" [Soup.NavigableString "a > b"];
                 Soup.Tag "p" [Soup.NavigableString "."]] |}
           eq_refl eq_refl).
  intros c Hc. vm_compute in Hc.
  repeat (destruct Hc as [<-|Hc]; [repeat split; discriminate|]).
  contradiction.
Defined.

Lemma embeddings_have_equal_length_witness :
  (forall t : Z, List.length [inject_Z t; 1%Q] = 2)
  /\ List.length
       (Detector.flat_embeddings (fun t => [inject_Z t; 1%Q])
          (fst (Detector.pad_both [5; 6; 7]%Z [8]%Z)))
     = 6
  /\ List.length
       (Detector.flat_embeddings (fun t => [inject_Z t; 1%Q])
          (snd (Detector.pad_both [5; 6; 7]%Z [8]%Z)))
     = 6.
Proof.
  assert (Hd : forall t : Z, List.length [inject_Z t; 1%Q] = 2)
    by (intros t; reflexivity).
  split; [exact Hd|].
  exact (embeddings_have_equal_length (fun t => [inject_Z t; 1%Q]) 2
           [5; 6; 7]%Z [8]%Z Hd).
Defined.


Lemma generated_flag_costs_about_five_witness :
  exists (p1 p0 : Q) (c1 c0 : list (string * Q)),
    Demo.evaluate "good plan" false ["plan"%string] = Py.Returns (p1, c1)
    /\ Demo.evaluate "good plan" true ["plan"%string] = Py.Returns (p0, c0)
    /\ (4 <= p1 - p0 <= 6)%Q.
Proof.
  do 4 eexists. split; [reflexivity|]. split; [reflexivity|].
  eapply (generated_flag_costs_about_five Demo.polarity Demo.words
            Demo.dictionary Demo.should_check "good plan" ["plan"%string]);
    reflexivity.
Defined.

(** * Tags inside one line *)

Section TagRemoval.

Lemma sub_plain_prefix (pre t : string) :
  (forall c, In c (Spec.chars pre) ->
             c <> Re.lt_sign /\ c <> Re.newline /\ c <> Re.tab) ->
  Re.sub (pre ++ t) = (pre ++ Re.sub t)%string.
Proof.
  induction pre as [|a pre IH]; intros Hp; [reflexivity|].
  destruct (Hp a (or_introl eq_refl)) as (Hl & Hn & Ht).
  apply Ascii.eqb_neq in Hl, Hn, Ht.
  assert (E : Re.match_at (String a (pre ++ t)) = None)
    by (cbn [Re.match_at]; now rewrite Hl, Hn, Ht).
  cbn [String.append]. rewrite (sub_keep a _ E), IH; [reflexivity|].
  intros c Hc. apply Hp. now right.
Qed.

Lemma lazy_dots_gt_finds (body post : string) :
  (forall c, In c (Spec.chars body) -> c <> Re.gt_sign /\ c <> Re.newline) ->
  Re.lazy_dots_gt (body ++ String Re.gt_sign post) = Some post.
Proof.
  induction body as [|a body IH]; intros Hb.
  - reflexivity.
  - destruct (Hb a (or_introl eq_refl)) as (Hg & Hn).
    apply Ascii.eqb_neq in Hg, Hn.
    cbn [String.append Re.lazy_dots_gt]. rewrite Hg, Hn.
    apply IH. intros c Hc. apply Hb. now right.
Qed.

(** X20: a tag that opens and closes within one line is removed whole,
    with everything between [<] and the first [>] after it; plain text
    in front of it is kept and the scan goes on behind it. *)
Theorem sub_removes_tag (pre body post : string) :
  (forall c, In c (Spec.chars pre) ->
             c <> Re.lt_sign /\ c <> Re.newline /\ c <> Re.tab) ->
  (forall c, In c (Spec.chars body) -> c <> Re.gt_sign /\ c <> Re.newline) ->
  Re.sub (pre ++ String Re.lt_sign (body ++ String Re.gt_sign post))
  = (pre ++ Re.sub post)%string.
Proof.
  intros Hp Hb. rewrite (sub_plain_prefix _ _ Hp). f_equal.
  apply sub_skip. cbn [Re.match_at].
  rewrite Ascii.eqb_refl. now apply lazy_dots_gt_finds.
Qed.

End TagRemoval.

Lemma sub_removes_tag_witness :
  Re.sub ("see " ++ String Re.lt_sign ("a href=x" ++ String Re.gt_sign "this"))
  = "see this"%string.
Proof.
  refine (eq_trans (sub_removes_tag "see " "a href=x" "this" _ _) _).
  - intros c Hc. vm_compute in Hc.
    repeat (destruct Hc as [<-|Hc]; [repeat split; discriminate|]).
    contradiction.
  - intros c Hc. vm_compute in Hc.
    repeat (destruct Hc as [<-|Hc]; [repeat split; discriminate|]).
    contradiction.
  - reflexivity.
Defined.

(** * The scorer in binary64 *)

Section Binary64Scorer.

Lemma int_truediv_returns (a b : nat) :
  b <> 0 ->
  Float64.int_truediv a b
  = Py.Returns
      (SF2Prim (SFdiv prec emax (Float64.of_int (Z.of_nat a))
                  (Float64.of_int (Z.of_nat b)))).
Proof.
  destruct b; [congruence|reflexivity].
Qed.

Lemma length_nonzero (A : Type) (l : list A) : l <> [] -> List.length l <> 0.
Proof. destruct l; [congruence|discriminate]. Qed.

Lemma contributions64_raises (s : Scorer64.scores) :
  PrimFloat.eqb (Scorer64.quality_score s) 0 = true ->
  Scorer64.contributions s = Py.Raises Py.ZeroDivisionError.
Proof.
  intros Hq. unfold Scorer64.contributions, Float64.truediv. cbv zeta.
  rewrite Hq. reflexivity.
Qed.

Lemma contributions64_returns (s : Scorer64.scores) :
  PrimFloat.eqb (Scorer64.quality_score s) 0 = false ->
  Scorer64.contributions s
  = Py.Returns
      [ ("Readability"%string,
         Float64.round
           (0.4 * Scorer64.readability_score s / Scorer64.quality_score s * 100) 2);
        ("Vocabulary Richness"%string,
         Float64.round
           (0.1 * Scorer64.vocabulary_score s / Scorer64.quality_score s * 100) 2);
        ("Relevance"%string,
         Float64.round
           (0.3 * Scorer64.relevance_score s / Scorer64.quality_score s * 100) 2);
        ("Generated by ChatGPT"%string,
         Float64.round
           (0.1 * Scorer64.effort_score s / Scorer64.quality_score s * 100) 2);
        ("Spelling Error"%string,
         Float64.round
           (0.1 * Scorer64.spelling_error_score s / Scorer64.quality_score s * 100)
           2) ]%float.
Proof.
  intros Hq. unfold Scorer64.contributions, Float64.truediv. cbv zeta.
  rewrite Hq. reflexivity.
Qed.

Variable polarity : string -> float.
Variable blob_words : string -> list string.
Variable dictionary : string -> bool.
Variable should_check : string -> bool.

Local Abbreviation sub_scores :=
  (Scorer64.sub_scores polarity blob_words dictionary should_check).
Local Abbreviation evaluate :=
  (Scorer64.evaluate_article_quality polarity blob_words dictionary should_check).

Lemma sub_scores64_no_words
    (article : string) (flag : bool) (keywords : list string) :
  blob_words article = [] ->
  sub_scores article flag keywords = Py.Raises Py.ZeroDivisionError.
Proof.
  intros Hw. unfold Scorer64.sub_scores. rewrite Hw. reflexivity.
Qed.

Lemma sub_scores64_no_keywords (article : string) (flag : bool) :
  sub_scores article flag [] = Py.Raises Py.ZeroDivisionError.
Proof.
  unfold Scorer64.sub_scores, Scorer64.vocabulary, Scorer64.spelling_error.
  destruct (blob_words article) as [|w ws]; [reflexivity|].
  rewrite !int_truediv_returns by discriminate. reflexivity.
Qed.

Lemma sub_scores64_returns
    (article : string) (flag : bool) (keywords : list string) :
  blob_words article <> [] -> keywords <> [] ->
  exists s, sub_scores article flag keywords = Py.Returns s.
Proof.
  intros Hw Hk.
  unfold Scorer64.sub_scores, Scorer64.vocabulary, Scorer64.spelling_error,
    Scorer64.relevance.
  rewrite !int_truediv_returns by now apply length_nonzero.
  cbn [Py.bind]. eauto.
Qed.

Lemma evaluate64_unfold
    (article : string) (flag : bool) (keywords : list string)
    (s : Scorer64.scores) :
  sub_scores article flag keywords = Py.Returns s ->
  evaluate article flag keywords
  = (c <- Scorer64.contributions s ;;
     Py.Returns (Scorer64.score_percentage s, c)).
Proof.
  intros Hs. unfold Scorer64.evaluate_article_quality. now rewrite Hs.
Qed.

(** C3: once the five sub-scores are defined, a non-zero composite gives
    the five contributions round(weight * subscore / quality * 100, 2),
    the divisor being the composite and not the percentage; a zero
    composite makes the call raise ZeroDivisionError.  All numbers are
    doubles, and zero is what [== 0.0] holds of. *)
Theorem C3_contributions_or_zero_division
    (article : string) (is_generated : bool) (keywords : list string)
    (s : Scorer64.scores) :
  sub_scores article is_generated keywords = Py.Returns s ->
  (PrimFloat.eqb (Scorer64.quality_score s) 0 = false ->
   evaluate article is_generated keywords
   = Py.Returns
       (Scorer64.score_percentage s,
        [ ("Readability"%string,
           Float64.round
             (0.4 * Scorer64.readability_score s / Scorer64.quality_score s * 100)
             2);
          ("Vocabulary Richness"%string,
           Float64.round
             (0.1 * Scorer64.vocabulary_score s / Scorer64.quality_score s * 100)
             2);
          ("Relevance"%string,
           Float64.round
             (0.3 * Scorer64.relevance_score s / Scorer64.quality_score s * 100)
             2);
          ("Generated by ChatGPT"%string,
           Float64.round
             (0.1 * Scorer64.effort_score s / Scorer64.quality_score s * 100)
             2);
          ("Spelling Error"%string,
           Float64.round
             (0.1 * Scorer64.spelling_error_score s / Scorer64.quality_score s * 100)
             2) ]%float))
  /\ (PrimFloat.eqb (Scorer64.quality_score s) 0 = true ->
      evaluate article is_generated keywords = Py.Raises Py.ZeroDivisionError).
Proof.
  intros Hs. rewrite (evaluate64_unfold _ _ _ _ Hs). split; intros Hq.
  - now rewrite (contributions64_returns s Hq).
  - now rewrite (contributions64_raises s Hq).
Qed.

(** X4: in binary64 the call fails exactly when the article has no word,
    or the keyword list is empty, or the composite is a zero, and then
    always with ZeroDivisionError. *)
Theorem evaluate_raises_iff
    (article : string) (flag : bool) (keywords : list string) (e : Py.exn) :
  evaluate article flag keywords = Py.Raises e
  <-> e = Py.ZeroDivisionError
      /\ (blob_words article = [] \/ keywords = []
          \/ exists s, sub_scores article flag keywords = Py.Returns s
                       /\ PrimFloat.eqb (Scorer64.quality_score s) 0 = true).
Proof.
  destruct (blob_words article) as [|w ws] eqn:Ew.
  { assert (E : evaluate article flag keywords = Py.Raises Py.ZeroDivisionError).
    { unfold Scorer64.evaluate_article_quality.
      now rewrite (sub_scores64_no_words _ _ _ Ew). }
    rewrite E. split; [intros [= <-]; auto|intros [-> _]; reflexivity]. }
  assert (Hw : blob_words article <> []) by (rewrite Ew; discriminate).
  destruct keywords as [|k ks].
  { assert (E : evaluate article flag [] = Py.Raises Py.ZeroDivisionError).
    { unfold Scorer64.evaluate_article_quality.
      now rewrite sub_scores64_no_keywords. }
    rewrite E. split; [intros [= <-]; auto|intros [-> _]; reflexivity]. }
  assert (Hk : k :: ks <> []) by discriminate.
  destruct (sub_scores64_returns article flag (k :: ks) Hw Hk) as [s Hs].
  rewrite (evaluate64_unfold _ _ _ _ Hs).
  destruct (PrimFloat.eqb (Scorer64.quality_score s) 0) eqn:Hq.
  - rewrite (contributions64_raises s Hq). cbn [Py.bind]. split.
    + intros [= <-]. split; [reflexivity|]. right. right. now exists s.
    + intros [-> _]. reflexivity.
  - rewrite (contributions64_returns s Hq). cbn [Py.bind].
    split; [discriminate|].
    intros [_ [H|[H|(s' & Hs' & Hq')]]]; congruence.
Qed.

End Binary64Scorer.



(** The composite of the doubles at the extreme sub-scores: exactly 1.0
    when every sub-score is at its maximum, -0.4 when every sub-score is
    at its minimum. *)
Example quality_score64_extremes :
  Scorer64.quality_score
    {| Scorer64.readability_score := 1; Scorer64.vocabulary_score := 1;
       Scorer64.spelling_error_score := 1; Scorer64.relevance_score := 1;
       Scorer64.effort_score := 1 |} = 1%float
  /\ Scorer64.quality_score
       {| Scorer64.readability_score := (-1); Scorer64.vocabulary_score := 0;
          Scorer64.spelling_error_score := 0; Scorer64.relevance_score := 0;
          Scorer64.effort_score := 0 |} = (-0.4)%float.
Proof. split; vm_compute; reflexivity. Qed.

Lemma C3_witness :
  (exists s : Scorer64.scores,
      Sample64.sub_scores "sad" true ["exam"%string] = Py.Returns s
      /\ PrimFloat.eqb (Scorer64.quality_score s) 0 = true
      /\ Sample64.evaluate "sad" true ["exam"%string]
         = Py.Raises Py.ZeroDivisionError)
  /\ (exists s : Scorer64.scores,
         Sample64.sub_scores "good plan" false ["plan"%string] = Py.Returns s
         /\ PrimFloat.eqb (Scorer64.quality_score s) 0 = false
         /\ Sample64.evaluate "good plan" false ["plan"%string]
            = Py.Returns
                (94%float,
                 [ ("Readability"%string, 31.82%float);
                   ("Vocabulary Richness"%string, 11.36%float);
                   ("Relevance"%string, 34.09%float);
                   ("Generated by ChatGPT"%string, 11.36%float);
                   ("Spelling Error"%string, 11.36%float) ])).
Proof.
  split.
  - pose (s := {| Scorer64.readability_score := (-0.5)%float;
                  Scorer64.vocabulary_score := 1%float;
                  Scorer64.spelling_error_score := 1%float;
                  Scorer64.relevance_score := 0%float;
                  Scorer64.effort_score := 0%float |}).
    assert (Hs : Sample64.sub_scores "sad" true ["exam"%string] = Py.Returns s)
      by (vm_compute; reflexivity).
    assert (Hq : PrimFloat.eqb (Scorer64.quality_score s) 0 = true)
      by (vm_compute; reflexivity).
    exists s. split; [exact Hs|]. split; [exact Hq|].
    exact (proj2 (C3_contributions_or_zero_division Sample64.polarity Demo.words
                    Sample64.dictionary Demo.should_check "sad" true
                    ["exam"%string] s Hs) Hq).
  - pose (s := {| Scorer64.readability_score := 0.7%float;
                  Scorer64.vocabulary_score := 1%float;
                  Scorer64.spelling_error_score := 1%float;
                  Scorer64.relevance_score := 1%float;
                  Scorer64.effort_score := 1%float |}).
    assert (Hs : Sample64.sub_scores "good plan" false ["plan"%string] = Py.Returns s)
      by (vm_compute; reflexivity).
    assert (Hq : PrimFloat.eqb (Scorer64.quality_score s) 0 = false)
      by (vm_compute; reflexivity).
    exists s. split; [exact Hs|]. split; [exact Hq|].
    unfold Sample64.evaluate.
    rewrite (proj1 (C3_contributions_or_zero_division Sample64.polarity Demo.words
                      Sample64.dictionary Demo.should_check "good plan" false
                      ["plan"%string] s Hs) Hq).
    vm_compute. reflexivity.
Defined.

(** Where exact arithmetic and the doubles part: for four times "sad" and
    one keyword of four present the exact composite is 0, the composite
    of the doubles is a negative number next to it, and the call returns
    the percentage 50.0. *)
Example evaluate64_next_to_zero :
  (Scorer.quality_score
     {| Scorer.readability_score := - (1 # 2);
        Scorer.vocabulary_score := 1 # 4;
        Scorer.spelling_error_score := 1;
        Scorer.relevance_score := 1 # 4;
        Scorer.effort_score := 0 |} == 0)%Q
  /\ exists (s : Scorer64.scores) (c : list (string * float)),
       Sample64.sub_scores "sad sad sad sad" true ["sad"; "x"; "y"; "z"]%string
       = Py.Returns s
       /\ PrimFloat.ltb (Scorer64.quality_score s) 0 = true
       /\ Sample64.evaluate "sad sad sad sad" true ["sad"; "x"; "y"; "z"]%string
          = Py.Returns (50%float, c).
Proof.
  split; [reflexivity|].
  do 2 eexists. split; [vm_compute; reflexivity|].
  split; vm_compute; reflexivity.
Qed.
